(** * PureCut background remover: the request/response pipeline of [App.tsx]

    A shallow embedding of the state-carrying part of [src/App.tsx]: the four
    React state cells of [App], the handlers [processFile], [removeBackground]
    and [reset], and the conditional rendering that decides which handler the
    user can fire.  Asynchronous work (the [FileReader] and the model call) is
    split at its suspension point: the part that runs synchronously in the
    handler, and the continuation that runs when the browser delivers the
    result.  The requests and file reads that are still outstanding are kept
    in an explicit [World].  A handler reads the cells of the render it was
    created in; it is invoked from a mounted control, so these are the
    current cells. *)

From Stdlib Require Import String Ascii List Bool Arith Lia.
Import ListNotations.
Open Scope string_scope.

(** ** JavaScript primitives used by the handlers *)

Module JS.

(** [!!v] for a [string | null] value: [null] and the empty string are
    falsy. *)
Definition truthy (v : option string) : bool :=
  match v with
  | Some s => negb (String.eqb s "")
  | None => false
  end.

(** [s.startsWith(p)]. *)
Fixpoint startsWith (p s : string) : bool :=
  match p with
  | EmptyString => true
  | String a p' =>
      match s with
      | EmptyString => false
      | String b s' => Ascii.eqb a b && startsWith p' s'
      end
  end.

(** [s.split(sep)] for a one-character separator.  The result is never
    empty: [''.split(',')] is [['']]. *)
Fixpoint split (sep : ascii) (s : string) : list string :=
  match s with
  | EmptyString => [EmptyString]
  | String c rest =>
      if Ascii.eqb c sep then EmptyString :: split sep rest
      else match split sep rest with
           | piece :: pieces => String c piece :: pieces
           | [] => [String c EmptyString]
           end
  end.

(** [xs[i]]: reading past the end of an array gives [undefined]. *)
Definition index {A : Type} (xs : list A) (i : nat) : option A :=
  nth_error xs i.

(** [`${v}`] inside a template literal: [undefined] prints as the word. *)
Definition template (v : option string) : string :=
  match v with
  | Some s => s
  | None => "undefined"
  end.

(** [a || b] on a possibly missing string. *)
Definition or_else (a : option string) (b : string) : string :=
  match a with
  | Some s => if String.eqb s "" then b else s
  | None => b
  end.

(** [c] does not occur in [s]. *)
Fixpoint lacks (c : ascii) (s : string) : bool :=
  match s with
  | EmptyString => true
  | String d rest => negb (Ascii.eqb d c) && lacks c rest
  end.

End JS.

(** ** Data model *)

(** A [File] as the handlers see it: its declared media type and its content.
    The content is kept in the transport encoding that
    [FileReader.readAsDataURL] puts after the comma (base64 text); the
    encoding itself is the browser's. *)
Record File : Type := mkFile {
  file_type : string;
  file_base64 : string
}.

(** [reader.readAsDataURL(file)] delivers [data:<type>;base64,<payload>]. *)
Definition readAsDataURL (f : File) : string :=
  "data:" ++ file_type f ++ ";base64," ++ file_base64 f.

(** The [Blob], [Part], [Content], [Candidate] and response shapes of
    [@google/genai]; every property is optional there. *)
Record Blob : Type := mkBlob {
  data : option string;
  mimeType : option string
}.

Record Part : Type := mkPart {
  inlineData : option Blob;
  text : option string
}.

Record Content : Type := mkContent {
  parts : option (list Part)
}.

Record Candidate : Type := mkCandidate {
  content : option Content
}.

Record GenerateContentResponse : Type := mkResponse {
  candidates : option (list Candidate)
}.

(** The argument of [genAI.models.generateContent]. *)
Record ModelRequest : Type := mkRequest {
  model : string;
  contents : Content
}.

(** How the awaited call settles: the promise is fulfilled with a response,
    or rejected with an error whose [message] may be missing. *)
Inductive Outcome : Type :=
| Fulfilled (response : GenerateContentResponse)
| Rejected (message : option string).

(** The four [useState] cells of [App]. *)
Record AppState : Type := mkApp {
  sourceImage : option string;
  resultImage : option string;
  isProcessing : bool;
  error : option string
}.

Definition setSourceImage (v : option string) (s : AppState) : AppState :=
  mkApp v (resultImage s) (isProcessing s) (error s).

Definition setResultImage (v : option string) (s : AppState) : AppState :=
  mkApp (sourceImage s) v (isProcessing s) (error s).

Definition setIsProcessing (v : bool) (s : AppState) : AppState :=
  mkApp (sourceImage s) (resultImage s) v (error s).

Definition setError (v : option string) (s : AppState) : AppState :=
  mkApp (sourceImage s) (resultImage s) (isProcessing s) v.

(** The component state together with the asynchronous work it has started
    and not yet heard back from. *)
Record World : Type := mkWorld {
  app : AppState;
  inFlight : list ModelRequest;
  reading : list File
}.

Definition initialState : AppState := mkApp None None false None.

Definition initialWorld : World := mkWorld initialState [] [].

(** ** Message texts *)

Definition invalidFileTypeMessage : string :=
  "Please upload a valid image file.".

Definition noImageReturnedMessage : string :=
  "Failed to generate a cutout. The model did not return an image.".

Definition genericFailureMessage : string :=
  "An error occurred while processing the image.".

Definition instruction : string :=
  "Remove the background from this image and return only the subject with a transparent background. Output the result as an image.".

Definition modelName : string := "gemini-2.5-flash-image".

(** ** Handlers *)

(** [processFile]: the media-type check runs at once; an accepted file is
    handed to the [FileReader] and nothing is stored until it has loaded. *)
Definition processFile (f : File) (w : World) : World :=
  if negb (JS.startsWith "image/" (file_type f)) then
    mkWorld (setError (Some invalidFileTypeMessage) (app w))
            (inFlight w) (reading w)
  else
    mkWorld (app w) (inFlight w) (reading w ++ [f]).

(** [reader.onload] of [processFile]. *)
Definition reader_onload (f : File) (s : AppState) : AppState :=
  setError None
    (setResultImage None
       (setSourceImage (Some (readAsDataURL f)) s)).

(** The request literal of [removeBackground], from the stored data URL. *)
Definition buildRequest (src : string) : ModelRequest :=
  let base64Data := JS.index (JS.split "," src) 1 in
  let mimeType :=
    JS.index (JS.split ":" (hd EmptyString (JS.split ";" src))) 1 in
  mkRequest modelName
    (mkContent
       (Some [ mkPart (Some (mkBlob base64Data mimeType)) None;
               mkPart None (Some instruction) ])).

(** [removeBackground] up to its [await]: the guard, the two setters and the
    call that is issued. *)
Definition removeBackground (w : World) : World :=
  match sourceImage (app w) with
  | None => w
  | Some src =>
      if String.eqb src "" then w
      else
        mkWorld (setError None (setIsProcessing true (app w)))
                (inFlight w ++ [buildRequest src])
                (reading w)
  end.

(** [response.candidates?.[0]?.content?.parts || []]. *)
Definition responseParts (r : GenerateContentResponse) : list Part :=
  match candidates r with
  | Some (c :: _) =>
      match content c with
      | Some ct =>
          match parts ct with
          | Some ps => ps
          | None => []
          end
      | None => []
      end
  | _ => []
  end.

(** The [for ... of] loop with its [break]: the state after the loop and the
    final value of [foundImage]. *)
Fixpoint scanParts (ps : list Part) (s : AppState) : AppState * bool :=
  match ps with
  | [] => (s, false)
  | part :: rest =>
      match inlineData part with
      | Some blob =>
          (setResultImage
             (Some ("data:image/png;base64," ++ JS.template (data blob))) s,
           true)
      | None => scanParts rest s
      end
  end.

(** The body of the [try] after the [await]: the state it leaves and, when it
    throws, the [message] of what was thrown. *)
Definition tryBody (o : Outcome) (s : AppState)
  : AppState * option (option string) :=
  match o with
  | Rejected message => (s, Some message)
  | Fulfilled response =>
      let (s', foundImage) := scanParts (responseParts response) s in
      if foundImage then (s', None)
      else (s', Some (Some noImageReturnedMessage))
  end.

(** [removeBackground] from its [await] on: [try], [catch], [finally]. *)
Definition removeBackground_resume (o : Outcome) (s : AppState) : AppState :=
  let (s1, thrown) := tryBody o s in
  let s2 :=
    match thrown with
    | Some message => setError (Some (JS.or_else message genericFailureMessage)) s1
    | None => s1
    end in
  setIsProcessing false s2.

(** [reset].  (Its last line clears the file input when that element is
    mounted; the input is no state cell and no handler reads it.) *)
Definition reset (s : AppState) : AppState :=
  setError None (setResultImage None (setSourceImage None s)).

(** ** What the render offers

    The JSX of [App] mounts each control under a condition on the state
    cells; a handler can only run while its control is mounted. *)

Module Render.

(** The drop zone and the file input: [!sourceImage ? (...) : ...]. *)
Definition uploadZone (s : AppState) : bool :=
  negb (JS.truthy (sourceImage s)).

(** The trash button, in the other branch of the same conditional. *)
Definition trashButton (s : AppState) : bool :=
  JS.truthy (sourceImage s).

(** [{!resultImage && !isProcessing && (<button onClick={removeBackground}>)}]. *)
Definition removeButton (s : AppState) : bool :=
  JS.truthy (sourceImage s)
  && negb (JS.truthy (resultImage s))
  && negb (isProcessing s).

(** [{isProcessing && (...)}], inside the branch that has a source. *)
Definition spinner (s : AppState) : bool :=
  JS.truthy (sourceImage s) && isProcessing s.

(** [{resultImage && (...)}]: the download and start-new buttons. *)
Definition resultButtons (s : AppState) : bool :=
  JS.truthy (sourceImage s) && JS.truthy (resultImage s).

(** [{error && (...)}]: the error banner, outside every other conditional. *)
Definition errorBanner (s : AppState) : bool :=
  JS.truthy (error s).

End Render.

(** The pipeline state the render distinguishes, read off the cells in the
    order the JSX tests them. *)
Inductive PipelineState : Type :=
| Idle | Loaded | Processing | Succeeded | Failed.

Definition pipelineState (s : AppState) : PipelineState :=
  if Render.uploadZone s then Idle
  else if isProcessing s then Processing
  else if JS.truthy (resultImage s) then Succeeded
  else if JS.truthy (error s) then Failed
  else Loaded.

(** ** Events *)

(** Remove the [i]-th element of a list, returning it with the rest. *)
Fixpoint takeOut {A : Type} (i : nat) (xs : list A) {struct xs}
  : option (A * list A) :=
  match xs, i with
  | [], _ => None
  | x :: rest, O => Some (x, rest)
  | x :: rest, S j =>
      match takeOut j rest with
      | Some (y, rest') => Some (y, x :: rest')
      | None => None
      end
  end.

Inductive Event : Type :=
| SelectFile (f : File)            (* [handleFileChange] or [onDrop] with a file *)
| FileLoaded (i : nat)             (* the [i]-th pending read fires [onload] *)
| ClickRemove                      (* the Remove Background button *)
| ClickReset                       (* the trash button or Start New *)
| ClickDownload                    (* the Download Result button *)
| Settled (i : nat) (o : Outcome). (* the [i]-th outstanding call settles *)

(** One event; [None] when the control is not mounted or there is no such
    outstanding work. *)
Definition fire (e : Event) (w : World) : option World :=
  match e with
  | SelectFile f =>
      if Render.uploadZone (app w) then Some (processFile f w) else None
  | FileLoaded i =>
      match takeOut i (reading w) with
      | Some (f, rest) =>
          Some (mkWorld (reader_onload f (app w)) (inFlight w) rest)
      | None => None
      end
  | ClickRemove =>
      if Render.removeButton (app w) then Some (removeBackground w) else None
  | ClickReset =>
      if Render.trashButton (app w)
      then Some (mkWorld (reset (app w)) (inFlight w) (reading w))
      else None
  | ClickDownload =>
      if Render.resultButtons (app w) then Some w else None
  | Settled i o =>
      match takeOut i (inFlight w) with
      | Some (_, rest) =>
          Some (mkWorld (removeBackground_resume o (app w)) rest (reading w))
      | None => None
      end
  end.

Fixpoint run (es : list Event) (w : World) : option World :=
  match es with
  | [] => Some w
  | e :: rest =>
      match fire e w with
      | Some w' => run rest w'
      | None => None
      end
  end.

(** An attempt to start a removal.  [removeBackground] has one call site,
    the [onClick] of the Remove Background button: the handler runs when
    that button is mounted, and there is nothing to press otherwise. *)
Definition startRemoval (w : World) : World :=
  match fire ClickRemove w with
  | Some w' => w'
  | None => w
  end.

(** The worlds the user can bring about from a freshly mounted component. *)
Definition reachable (w : World) : Prop :=
  exists es, run es initialWorld = Some w.

(** What the response interpreter extracts: the data URL built from the first
    part that has [inlineData]. *)
Definition interpret (r : GenerateContentResponse) : option string :=
  let (s, foundImage) := scanParts (responseParts r) initialState in
  if foundImage then resultImage s else None.

(** No part of the reply carries [inlineData]. *)
Definition noInlineData (r : GenerateContentResponse) : bool :=
  forallb (fun p => match inlineData p with Some _ => false | None => true end)
          (responseParts r).

(** Sample values. *)
Definition pngFile : File := mkFile "image/png" "iVBORw0KGgo=".
Definition jpegFile : File := mkFile "image/jpeg" "/9j/4AAQ".
Definition textFile : File := mkFile "text/plain" "aGVsbG8=".

Definition replyOf (ps : list Part) : GenerateContentResponse :=
  mkResponse (Some [mkCandidate (Some (mkContent (Some ps)))]).

Definition textPart (t : string) : Part := mkPart None (Some t).
Definition imagePart (d : string) : Part :=
  mkPart (Some (mkBlob (Some d) (Some "image/png"))) None.

(** A source has loaded; and the same after Remove Background was pressed. *)
Definition loadedWorld : World :=
  mkWorld (reader_onload pngFile initialState) [] [].

Definition processingWorld : World := removeBackground loadedWorld.

(** The removal failed in transport. *)
Definition failedWorld : World :=
  mkWorld (removeBackground_resume (Rejected (Some "network down"))
             (app processingWorld))
          [] [].

(** What every reachable world satisfies: at most one call is outstanding,
    the flag is up exactly while one is, and no result is held meanwhile. *)
Definition invariant (w : World) : Prop :=
  length (inFlight w) <= 1
  /\ (isProcessing (app w) = true <-> inFlight w <> [])
  /\ (isProcessing (app w) = true -> resultImage (app w) = None)
  /\ (resultImage (app w) = None \/ JS.truthy (resultImage (app w)) = true).

(** ** The file handlers and the download *)

(** The two flags a handler can raise on the DOM event it is given. *)
Record DomEvent : Type := mkDomEvent {
  defaultPrevented : bool;
  propagationStopped : bool
}.

Definition preventDefault (e : DomEvent) : DomEvent :=
  mkDomEvent true (propagationStopped e).

Definition stopPropagation (e : DomEvent) : DomEvent :=
  mkDomEvent (defaultPrevented e) true.

(** [files?.[0]] on a [FileList | null]. *)
Definition firstFile (files : option (list File)) : option File :=
  match files with
  | Some fs => JS.index fs 0
  | None => None
  end.

(** [handleFileChange], given [e.target.files]. *)
Definition handleFileChange (files : option (list File)) (w : World) : World :=
  match firstFile files with
  | Some file => processFile file w
  | None => w
  end.

(** [onDragOver]. *)
Definition onDragOver (e : DomEvent) : DomEvent :=
  stopPropagation (preventDefault e).

(** [onDrop], given [e.dataTransfer.files]. *)
Definition onDrop (files : option (list File)) (e : DomEvent) (w : World)
  : DomEvent * World :=
  let e' := stopPropagation (preventDefault e) in
  match firstFile files with
  | Some file => (e', processFile file w)
  | None => (e', w)
  end.

(** The part of the document [downloadResult] works on: the children of
    [document.body], the number of elements created so far (an element is
    known by the order of its creation), and the saves that clicks on
    download links have triggered, each with its address and file name. *)
Record Element : Type := mkElement {
  identity : nat;
  tagName : string;
  href : option string;
  download : option string
}.

Record Document : Type := mkDocument {
  body : list Element;
  created : nat;
  saved : list (string * string)
}.

Definition sameElement (x y : Element) : bool :=
  Nat.eqb (identity x) (identity y).

(** [document.createElement(tag)]. *)
Definition createElement (tag : string) (d : Document) : Element * Document :=
  (mkElement (created d) tag None None,
   mkDocument (body d) (S (created d)) (saved d)).

(** [document.body.removeChild(x)]. *)
Definition removeChild (x : Element) (d : Document) : Document :=
  mkDocument (filter (fun y => negb (sameElement x y)) (body d))
             (created d) (saved d).

(** [document.body.appendChild(x)]: the node becomes the last child (and
    leaves the place it had, if it was a child already). *)
Definition appendChild (x : Element) (d : Document) : Document :=
  mkDocument (filter (fun y => negb (sameElement x y)) (body d) ++ [x])
             (created d) (saved d).

(** [x.click()] on a link that carries a [download] attribute. *)
Definition click (x : Element) (d : Document) : Document :=
  match href x, download x with
  | Some address, Some name =>
      mkDocument (body d) (created d) (saved d ++ [(address, name)])
  | _, _ => d
  end.

Definition downloadName : string := "purecut-result.png".

(** [downloadResult]. *)
Definition downloadResult (s : AppState) (d : Document) : Document :=
  match resultImage s with
  | None => d
  | Some result =>
      if String.eqb result "" then d
      else
        let (fresh, d1) := createElement "a" d in
        let link :=
          mkElement (identity fresh) (tagName fresh)
                    (Some result) (Some downloadName) in
        removeChild link (click link (appendChild link d1))
  end.

(** Every child of the body was created before now. *)
Definition bodyKnown (d : Document) : Prop :=
  Forall (fun x => identity x < created d) (body d).

(** ** Notions used in the statements *)

(** The part of [s] before the first [c] (all of [s] when there is none). *)
Fixpoint cutAt (c : ascii) (s : string) : string :=
  match s with
  | EmptyString => EmptyString
  | String d rest => if Ascii.eqb d c then EmptyString else String d (cutAt c rest)
  end.

Definition accepted (f : File) : Prop :=
  JS.startsWith "image/" (file_type f) = true.

(** Where the contents of the cells and of the outstanding work come from. *)
Definition provenance (w : World) : Prop :=
  Forall accepted (reading w)
  /\ (sourceImage (app w) = None
      \/ exists f, accepted f /\ sourceImage (app w) = Some (readAsDataURL f))
  /\ Forall (fun q => exists f, accepted f /\ q = buildRequest (readAsDataURL f))
            (inFlight w)
  /\ (resultImage (app w) = None
      \/ exists d, resultImage (app w) = Some ("data:image/png;base64," ++ d))
  /\ (error (app w) = None \/ JS.truthy (error (app w)) = true).

(** How many of the given controls are mounted. *)
Definition mounted (controls : list bool) : nat :=
  length (filter (fun b => b) controls).

(** The data and the media type of the inline part of a request. *)
Definition inlinePart (q : ModelRequest) : option Blob :=
  match parts (contents q) with
  | Some (p :: _) => inlineData p
  | _ => None
  end.

Definition sampleDocument : Document :=
  mkDocument [mkElement 0 "div" None None] 1 [].

(** The removal succeeded. *)
Definition succeededWorld : World :=
  mkWorld (removeBackground_resume (Fulfilled (replyOf [imagePart "AAAA"]))
             (app processingWorld))
          [] [].

(** The moves of the pipeline state that each event can make. *)
Definition allowed (before : PipelineState) (e : Event) (after : PipelineState)
  : Prop :=
  match e with
  | SelectFile _ => before = Idle /\ after = Idle
  | FileLoaded _ =>
      (after = Loaded \/ after = Processing)
      /\ (before = Processing -> after = Processing)
      /\ (before = Loaded \/ before = Succeeded \/ before = Failed ->
          after = Loaded)
  | ClickRemove => (before = Loaded \/ before = Failed) /\ after = Processing
  | ClickReset => before <> Idle /\ after = Idle
  | ClickDownload => before = Succeeded /\ after = Succeeded
  | Settled _ _ =>
      (before = Processing /\ (after = Succeeded \/ after = Failed))
      \/ (before = Idle /\ after = Idle)
  end.

(** No error is held while a source is shown as processing or as done. *)
Definition quiet (w : World) : Prop :=
  sourceImage (app w) <> None ->
  isProcessing (app w) = true \/ resultImage (app w) <> None ->
  error (app w) = None.

(** Nothing is stored, pending or outstanding. *)
Definition idleAndEmpty (w : World) : Prop :=
  sourceImage (app w) = None /\ resultImage (app w) = None
  /\ isProcessing (app w) = false /\ inFlight w = [] /\ reading w = [].

(** * Properties *)

(** ** Strings *)

Section StringFacts.

Lemma append_assoc (a b c : string) : (a ++ b) ++ c = a ++ (b ++ c).
Proof.
  induction a as [|x a IH]; simpl; [reflexivity|].
  now rewrite IH.
Qed.

Lemma lacks_append (c : ascii) (a b : string) :
  JS.lacks c (a ++ b) = JS.lacks c a && JS.lacks c b.
Proof.
  induction a as [|x a IH]; simpl; [reflexivity|].
  now rewrite IH, andb_assoc.
Qed.

Lemma split_nonempty (sep : ascii) (s : string) : JS.split sep s <> [].
Proof.
  destruct s as [|c s]; simpl; [discriminate|].
  destruct (Ascii.eqb c sep); [discriminate|].
  destruct (JS.split sep s); discriminate.
Qed.

(** Without the separator, the string is its own single piece. *)
Lemma split_lacks (sep : ascii) (s : string) :
  JS.lacks sep s = true -> JS.split sep s = [s].
Proof.
  induction s as [|c s IH]; simpl; intros H; [reflexivity|].
  apply andb_true_iff in H as [Hc Hs].
  apply negb_true_iff in Hc. rewrite Hc, (IH Hs). reflexivity.
Qed.

(** The first piece ends at the first separator. *)
Lemma split_first (sep : ascii) (a b : string) :
  JS.lacks sep a = true ->
  JS.split sep (a ++ String sep b) = a :: JS.split sep b.
Proof.
  induction a as [|c a IH]; simpl; intros H.
  - now rewrite Ascii.eqb_refl.
  - apply andb_true_iff in H as [Hc Ha].
    apply negb_true_iff in Hc. rewrite Hc, (IH Ha). reflexivity.
Qed.

Lemma truthy_dataURL (f : File) : JS.truthy (Some (readAsDataURL f)) = true.
Proof. reflexivity. Qed.

Lemma truthy_png (d : string) :
  JS.truthy (Some ("data:image/png;base64," ++ d)) = true.
Proof. reflexivity. Qed.

Lemma truthy_Some (v : option string) :
  JS.truthy v = true -> exists s, v = Some s /\ s <> "".
Proof.
  destruct v as [s|]; simpl; [|discriminate].
  intros H. exists s. split; [reflexivity|].
  apply negb_true_iff, String.eqb_neq in H. exact H.
Qed.

End StringFacts.

(** ** The request literal *)

Lemma buildRequest_shape (src : string) :
  exists blob,
    parts (contents (buildRequest src))
    = Some [mkPart (Some blob) None; mkPart None (Some instruction)].
Proof. eexists. reflexivity. Qed.

Lemma buildRequest_dataURL (f : File) :
  JS.lacks "," (file_type f) = true ->
  JS.lacks ";" (file_type f) = true ->
  JS.lacks ":" (file_type f) = true ->
  JS.lacks "," (file_base64 f) = true ->
  buildRequest (readAsDataURL f)
  = mkRequest modelName
      (mkContent
         (Some [ mkPart (Some (mkBlob (Some (file_base64 f))
                                      (Some (file_type f)))) None;
                 mkPart None (Some instruction) ])).
Proof.
  intros Hcomma Hsemi Hcolon Hpay.
  unfold buildRequest, readAsDataURL.
  assert (E1 : JS.split "," ("data:" ++ file_type f ++ ";base64," ++ file_base64 f)
               = [("data:" ++ file_type f ++ ";base64"); file_base64 f]).
  { change (";base64," ++ file_base64 f)
      with (";base64" ++ String "," (file_base64 f)).
    rewrite <- (append_assoc (file_type f)), <- (append_assoc "data:").
    rewrite split_first.
    - now rewrite (split_lacks _ _ Hpay).
    - rewrite !lacks_append, Hcomma. reflexivity. }
  assert (E2 : hd EmptyString
                 (JS.split ";" ("data:" ++ file_type f ++ ";base64," ++ file_base64 f))
               = "data:" ++ file_type f).
  { change (";base64," ++ file_base64 f)
      with (String ";" ("base64," ++ file_base64 f)).
    rewrite <- (append_assoc "data:"), split_first; [reflexivity|].
    rewrite lacks_append, Hsemi. reflexivity. }
  assert (E3 : JS.split ":" ("data:" ++ file_type f) = ["data"; file_type f]).
  { change ("data:" ++ file_type f) with ("data" ++ String ":" (file_type f)).
    rewrite split_first; [|reflexivity].
    now rewrite (split_lacks _ _ Hcolon). }
  rewrite E1, E2, E3. reflexivity.
Qed.

(** ** The reply continuation *)

Lemma scanParts_none (ps : list Part) (s : AppState) :
  forallb (fun p => match inlineData p with Some _ => false | None => true end) ps
  = true ->
  scanParts ps s = (s, false).
Proof.
  induction ps as [|p ps IH]; simpl; intros H; [reflexivity|].
  destruct (inlineData p); [discriminate|]. now apply IH.
Qed.

Lemma scanParts_first (pre post : list Part) (p : Part) (b : Blob) (s : AppState) :
  Forall (fun q => inlineData q = None) pre ->
  inlineData p = Some b ->
  scanParts (pre ++ p :: post) s
  = (setResultImage (Some ("data:image/png;base64," ++ JS.template (data b))) s,
     true).
Proof.
  intros Hpre Hp. induction Hpre as [|q pre Hq _ IH]; simpl.
  - now rewrite Hp.
  - now rewrite Hq.
Qed.

Lemma resume_source (o : Outcome) (s : AppState) :
  sourceImage (removeBackground_resume o s) = sourceImage s.
Proof.
  unfold removeBackground_resume, tryBody.
  destruct o as [r|m]; [|reflexivity].
  destruct (scanParts (responseParts r) s) as [s' found] eqn:E.
  assert (sourceImage s' = sourceImage s).
  { clear -E. revert E. induction (responseParts r) as [|p ps IH]; simpl.
    - intros E. now inversion E.
    - destruct (inlineData p); [|exact IH].
      intros E. now inversion E. }
  destruct found; simpl; assumption.
Qed.

Lemma resume_idle_flag (o : Outcome) (s : AppState) :
  isProcessing (removeBackground_resume o s) = false.
Proof.
  unfold removeBackground_resume. destruct (tryBody o s). reflexivity.
Qed.

Lemma resume_no_image (r : GenerateContentResponse) (s : AppState) :
  noInlineData r = true ->
  removeBackground_resume (Fulfilled r) s
  = mkApp (sourceImage s) (resultImage s) false (Some noImageReturnedMessage).
Proof.
  intros H. unfold removeBackground_resume, tryBody.
  rewrite (scanParts_none _ s H). reflexivity.
Qed.

Lemma resume_rejected (m : option string) (s : AppState) :
  removeBackground_resume (Rejected m) s
  = mkApp (sourceImage s) (resultImage s) false
      (Some (JS.or_else m genericFailureMessage)).
Proof. reflexivity. Qed.

Lemma resume_image (r : GenerateContentResponse) (s : AppState) (url : string) :
  interpret r = Some url ->
  removeBackground_resume (Fulfilled r) s
  = mkApp (sourceImage s) (Some url) false (error s).
Proof.
  unfold interpret, removeBackground_resume, tryBody.
  induction (responseParts r) as [|p ps IH]; simpl; [discriminate|].
  destruct (inlineData p) as [b|]; simpl.
  - intros E. inversion E. reflexivity.
  - exact IH.
Qed.

Lemma interpret_none (r : GenerateContentResponse) :
  interpret r = None <-> noInlineData r = true.
Proof.
  unfold interpret, noInlineData.
  induction (responseParts r) as [|p ps IH]; simpl.
  - split; reflexivity.
  - destruct (inlineData p); simpl; [split; discriminate | exact IH].
Qed.

(** ** What holds in every reachable world *)

Lemma takeOut_single {A : Type} (i : nat) (xs : list A) (x : A) (rest : list A) :
  length xs <= 1 -> takeOut i xs = Some (x, rest) -> xs = [x] /\ rest = [] /\ i = 0.
Proof.
  destruct xs as [|y [|z xs]]; simpl; intros L E.
  - discriminate.
  - destruct i as [|j]; [inversion E; auto | destruct j; discriminate].
  - lia.
Qed.

Lemma takeOut_last {A : Type} (xs : list A) (x : A) :
  takeOut (length xs) (xs ++ [x]) = Some (x, xs).
Proof.
  induction xs as [|y xs IH]; simpl; [reflexivity|].
  now rewrite IH.
Qed.

Lemma resume_result_shape (o : Outcome) (s : AppState) :
  resultImage s = None \/ JS.truthy (resultImage s) = true ->
  resultImage (removeBackground_resume o s) = None
  \/ JS.truthy (resultImage (removeBackground_resume o s)) = true.
Proof.
  intros H. destruct o as [r|m]; [|rewrite resume_rejected; exact H].
  destruct (interpret r) as [url|] eqn:E.
  - rewrite (resume_image _ _ _ E). right. simpl.
    revert E. unfold interpret.
    induction (responseParts r) as [|p ps IH]; simpl; [discriminate|].
    destruct (inlineData p); [|exact IH].
    simpl. intros E. inversion E. reflexivity.
  - apply interpret_none in E. rewrite (resume_no_image _ _ E). exact H.
Qed.

Lemma invariant_initial : invariant initialWorld.
Proof.
  repeat split; simpl; auto; try discriminate; try congruence.
Qed.

Lemma invariant_fire (e : Event) (w w' : World) :
  invariant w -> fire e w = Some w' -> invariant w'.
Proof.
  intros (Hlen & Hflag & Hres & Hshape) E.
  destruct e as [f|i| | | |i o]; simpl in E.
  - (* SelectFile *)
    destruct (Render.uploadZone (app w)); [|discriminate].
    inversion E; subst w'; clear E. unfold processFile.
    destruct (negb (JS.startsWith "image/" (file_type f))); simpl;
      repeat split; auto; apply Hflag.
  - (* FileLoaded *)
    destruct (takeOut i (reading w)) as [[f rest]|]; [|discriminate].
    inversion E; subst w'; clear E. simpl.
    repeat split; auto; apply Hflag.
  - (* ClickRemove *)
    destruct (Render.removeButton (app w)) eqn:B; [|discriminate].
    inversion E; subst w'; clear E.
    unfold Render.removeButton in B.
    apply andb_true_iff in B as [B Hproc].
    apply andb_true_iff in B as [Hsrc Hnores].
    apply negb_true_iff in Hproc, Hnores.
    apply truthy_Some in Hsrc as (src & Hsrc & Hne).
    assert (Hempty : inFlight w = []).
    { destruct (inFlight w) as [|q qs] eqn:F; [reflexivity|].
      assert (isProcessing (app w) = true) by (apply Hflag; discriminate).
      congruence. }
    assert (Hnone : resultImage (app w) = None).
    { destruct Hshape as [H|H]; [exact H | congruence]. }
    unfold removeBackground. rewrite Hsrc.
    apply String.eqb_neq in Hne. rewrite Hne. simpl. rewrite Hempty. simpl.
    repeat split; auto; discriminate.
  - (* ClickReset *)
    destruct (Render.trashButton (app w)); [|discriminate].
    inversion E; subst w'; clear E. simpl.
    repeat split; auto; apply Hflag.
  - (* ClickDownload *)
    destruct (Render.resultButtons (app w)); [|discriminate].
    inversion E; subst w'; clear E. repeat split; auto; apply Hflag.
  - (* Settled *)
    destruct (takeOut i (inFlight w)) as [[q rest]|] eqn:T; [|discriminate].
    inversion E; subst w'; clear E.
    destruct (takeOut_single _ _ _ _ Hlen T) as (_ & Hrest & _). subst rest.
    unfold invariant. cbn [app inFlight reading length].
    rewrite resume_idle_flag.
    repeat split; auto; try discriminate; try congruence.
    now apply resume_result_shape.
Qed.

Lemma invariant_run (es : list Event) :
  forall w w', invariant w -> run es w = Some w' -> invariant w'.
Proof.
  induction es as [|e es IH]; simpl; intros w w' Hinv E.
  - inversion E; subst; exact Hinv.
  - destruct (fire e w) as [w1|] eqn:F; [|discriminate].
    exact (IH _ _ (invariant_fire _ _ _ Hinv F) E).
Qed.

Lemma reachable_invariant (w : World) : reachable w -> invariant w.
Proof.
  intros [es E]. exact (invariant_run es _ _ invariant_initial E).
Qed.

(** What the five pipeline states say about the cells. *)
Lemma pipelineState_Idle (s : AppState) :
  pipelineState s = Idle <-> JS.truthy (sourceImage s) = false.
Proof.
  unfold pipelineState, Render.uploadZone.
  destruct (JS.truthy (sourceImage s)); simpl.
  - destruct (isProcessing s), (JS.truthy (resultImage s)), (JS.truthy (error s));
      split; discriminate.
  - split; reflexivity.
Qed.

Lemma pipelineState_Processing (s : AppState) :
  pipelineState s = Processing <->
  JS.truthy (sourceImage s) = true /\ isProcessing s = true.
Proof.
  unfold pipelineState, Render.uploadZone.
  destruct (JS.truthy (sourceImage s)), (isProcessing s),
    (JS.truthy (resultImage s)), (JS.truthy (error s)); simpl;
    split; try discriminate; intuition discriminate.
Qed.

Lemma pipelineState_Failed (s : AppState) :
  pipelineState s = Failed <->
  JS.truthy (sourceImage s) = true /\ isProcessing s = false
  /\ JS.truthy (resultImage s) = false /\ JS.truthy (error s) = true.
Proof.
  unfold pipelineState, Render.uploadZone.
  destruct (JS.truthy (sourceImage s)), (isProcessing s),
    (JS.truthy (resultImage s)), (JS.truthy (error s)); simpl;
    split; try discriminate; intuition discriminate.
Qed.

(** * The claims *)

(** ** Ingestion *)

(** C3. A file whose declared type does not start with [image/] is rejected:
    the error cell gets the invalid-file message, no read is started (so no
    source will come of it), no request is issued, and the other three cells,
    hence every control the render mounts, stay as they were.  The pipeline
    state read off the cells is the same, a loaded pipeline now showing the
    error. *)
Theorem processFile_rejects_non_image (f : File) (w : World) :
  JS.startsWith "image/" (file_type f) = false ->
  let w' := processFile f w in
  error (app w') = Some invalidFileTypeMessage
  /\ sourceImage (app w') = sourceImage (app w)
  /\ resultImage (app w') = resultImage (app w)
  /\ isProcessing (app w') = isProcessing (app w)
  /\ reading w' = reading w
  /\ inFlight w' = inFlight w
  /\ Render.uploadZone (app w') = Render.uploadZone (app w)
  /\ Render.trashButton (app w') = Render.trashButton (app w)
  /\ Render.removeButton (app w') = Render.removeButton (app w)
  /\ Render.spinner (app w') = Render.spinner (app w)
  /\ Render.resultButtons (app w') = Render.resultButtons (app w)
  /\ pipelineState (app w')
     = match pipelineState (app w) with
       | Loaded => Failed
       | st => st
       end.
Proof.
  intros H w'. subst w'. unfold processFile. rewrite H. simpl.
  repeat split.
  unfold pipelineState, Render.uploadZone. simpl.
  destruct (JS.truthy (sourceImage (app w))), (isProcessing (app w)),
    (JS.truthy (resultImage (app w))), (JS.truthy (error (app w)));
    reflexivity.
Qed.

Lemma processFile_rejects_non_image_witness :
  JS.startsWith "image/" (file_type textFile) = false
  /\ error (app (processFile textFile initialWorld))
     = Some invalidFileTypeMessage
  /\ sourceImage (app (processFile textFile initialWorld)) = None
  /\ pipelineState (app (processFile textFile initialWorld)) = Idle.
Proof.
  pose proof (processFile_rejects_non_image textFile initialWorld eq_refl) as H.
  cbv zeta in H.
  destruct H as (He & Hs & _ & _ & _ & _ & _ & _ & _ & _ & _ & Hp).
  split; [reflexivity|]. split; [exact He|]. split; [exact Hs | exact Hp].
Defined.

(** ** Reset *)

(** C8. From every state [reset] clears the source, the result and the error,
    and the render is back at the upload zone: the pipeline is idle.  The
    processing flag is not one of the cells it writes; from a state that is
    not processing, in particular a succeeded or a failed one, the outcome is
    the initial state itself. *)
Theorem reset_returns_to_idle (s : AppState) :
  sourceImage (reset s) = None
  /\ resultImage (reset s) = None
  /\ error (reset s) = None
  /\ pipelineState (reset s) = Idle
  /\ isProcessing (reset s) = isProcessing s
  /\ (pipelineState s = Succeeded \/ pipelineState s = Failed ->
      reset s = initialState).
Proof.
  repeat split.
  intros H. unfold reset, setError, setResultImage, setSourceImage. simpl.
  assert (isProcessing s = false) as ->; [|reflexivity].
  unfold pipelineState in H.
  destruct (Render.uploadZone s), (isProcessing s); try reflexivity;
    destruct H; discriminate.
Qed.

(** ** Starting a removal *)

(** C9. With no source loaded the guard of [removeBackground] returns at
    once: no cell changes and no request is issued.  (The render does not
    even mount the button.) *)
Theorem removeBackground_idle_noop (w : World) :
  pipelineState (app w) = Idle ->
  removeBackground w = w /\ fire ClickRemove w = None.
Proof.
  intros H. apply pipelineState_Idle in H.
  split.
  - unfold removeBackground.
    destruct (sourceImage (app w)) as [src|]; [|reflexivity].
    simpl in H. apply negb_false_iff in H. now rewrite H.
  - simpl. unfold Render.removeButton. now rewrite H.
Qed.

Lemma removeBackground_idle_noop_witness :
  pipelineState (app initialWorld) = Idle
  /\ removeBackground initialWorld = initialWorld
  /\ fire ClickRemove initialWorld = None.
Proof.
  split; [reflexivity|].
  apply (removeBackground_idle_noop initialWorld). reflexivity.
Defined.

(** C10. In a failed state the source is still there, so the guard lets
    [removeBackground] through (and the render mounts its button): the error
    is cleared, the flag is raised, the request for the stored source is
    issued, and the outcome is the one the same call gives from the loaded
    state that differs only in having no error. *)
Theorem removeBackground_retry_from_failed (w : World) :
  pipelineState (app w) = Failed ->
  exists src,
    sourceImage (app w) = Some src
    /\ Render.removeButton (app w) = true
    /\ removeBackground w
       = mkWorld (mkApp (Some src) (resultImage (app w)) true None)
                 (inFlight w ++ [buildRequest src])
                 (reading w)
    /\ pipelineState (app (removeBackground w)) = Processing
    /\ pipelineState (setError None (app w)) = Loaded
    /\ removeBackground w
       = removeBackground (mkWorld (setError None (app w)) (inFlight w) (reading w)).
Proof.
  intros H. apply pipelineState_Failed in H as (Hsrc & Hproc & Hres & Herr).
  destruct (truthy_Some _ Hsrc) as (src & E & Hne).
  apply String.eqb_neq in Hne.
  exists src. split; [exact E|]. split.
  { unfold Render.removeButton. now rewrite Hsrc, Hres, Hproc. }
  assert (R : removeBackground w
              = mkWorld (mkApp (Some src) (resultImage (app w)) true None)
                  (inFlight w ++ [buildRequest src]) (reading w)).
  { unfold removeBackground. rewrite E, Hne.
    unfold setError, setIsProcessing. simpl. now rewrite E. }
  split; [exact R|]. split.
  { rewrite R. apply pipelineState_Processing. simpl.
    rewrite E in Hsrc. simpl in Hsrc. auto. }
  split.
  { unfold pipelineState, Render.uploadZone. simpl. now rewrite Hsrc, Hproc, Hres. }
  rewrite R. unfold removeBackground. simpl. rewrite E, Hne.
  unfold setError, setIsProcessing. simpl. now rewrite E.
Qed.

Lemma removeBackground_retry_from_failed_witness :
  pipelineState (app failedWorld) = Failed
  /\ exists src,
       sourceImage (app failedWorld) = Some src
       /\ Render.removeButton (app failedWorld) = true
       /\ removeBackground failedWorld
          = mkWorld (mkApp (Some src) (resultImage (app failedWorld)) true None)
                    (inFlight failedWorld ++ [buildRequest src])
                    (reading failedWorld)
       /\ pipelineState (app (removeBackground failedWorld)) = Processing
       /\ pipelineState (setError None (app failedWorld)) = Loaded
       /\ removeBackground failedWorld
          = removeBackground
              (mkWorld (setError None (app failedWorld))
                       (inFlight failedWorld) (reading failedWorld)).
Proof.
  split; [reflexivity|].
  apply (removeBackground_retry_from_failed failedWorld). reflexivity.
Defined.

(** C2. While the pipeline of a reachable world is processing, an attempt
    to start a removal changes nothing: the button is not mounted, so the
    state cells, the pipeline state and the outstanding requests are what
    they were, and exactly one request is outstanding.  In every reachable
    world, before and after such an attempt, at most one request is
    outstanding, and the flag is up exactly while one is. *)
Theorem startRemoval_noop_while_processing (w : World) :
  reachable w ->
  pipelineState (app w) = Processing ->
  startRemoval w = w
  /\ fire ClickRemove w = None
  /\ app (startRemoval w) = app w
  /\ pipelineState (app (startRemoval w)) = Processing
  /\ inFlight (startRemoval w) = inFlight w
  /\ length (inFlight w) = 1
  /\ (forall v : World,
        reachable v ->
        length (inFlight v) <= 1
        /\ length (inFlight (startRemoval v)) <= 1
        /\ (isProcessing (app v) = true <-> length (inFlight v) = 1)
        /\ (isProcessing (app v) = true ->
            fire ClickRemove v = None /\ startRemoval v = v)).
Proof.
  intros R HP.
  assert (Gate : forall v, isProcessing (app v) = true ->
                           fire ClickRemove v = None /\ startRemoval v = v).
  { intros v H.
    assert (F : fire ClickRemove v = None).
    { simpl. unfold Render.removeButton. rewrite H. now rewrite andb_false_r. }
    split; [exact F|]. unfold startRemoval. now rewrite F. }
  assert (Count : forall v, reachable v ->
                            (isProcessing (app v) = true <-> length (inFlight v) = 1)).
  { intros v Rv. destruct (reachable_invariant v Rv) as (Hlen & Hflag & _ & _).
    rewrite Hflag. destruct (inFlight v) as [|q [|q' qs]]; simpl in *.
    - split; [intros H; now contradiction H | discriminate].
    - split; [reflexivity | discriminate].
    - lia. }
  apply pipelineState_Processing in HP as HP'. destruct HP' as [_ Hproc].
  destruct (Gate w Hproc) as [F S].
  split; [exact S|]. split; [exact F|]. rewrite S.
  split; [reflexivity|]. split; [exact HP|]. split; [reflexivity|].
  split; [now apply Count|].
  intros v Rv. pose proof (reachable_invariant v Rv) as I.
  split; [apply I|]. split; [|split; [now apply Count | apply Gate]].
  unfold startRemoval. destruct (fire ClickRemove v) as [v'|] eqn:E.
  - apply (invariant_fire _ _ _ I E).
  - apply I.
Qed.

Lemma startRemoval_noop_while_processing_witness :
  startRemoval processingWorld = processingWorld
  /\ fire ClickRemove processingWorld = None
  /\ app (startRemoval processingWorld) = app processingWorld
  /\ pipelineState (app (startRemoval processingWorld)) = Processing
  /\ inFlight (startRemoval processingWorld) = inFlight processingWorld
  /\ length (inFlight processingWorld) = 1
  /\ (forall v : World,
        reachable v ->
        length (inFlight v) <= 1
        /\ length (inFlight (startRemoval v)) <= 1
        /\ (isProcessing (app v) = true <-> length (inFlight v) = 1)
        /\ (isProcessing (app v) = true ->
            fire ClickRemove v = None /\ startRemoval v = v)).
Proof.
  apply (startRemoval_noop_while_processing processingWorld).
  - exists [SelectFile pngFile; FileLoaded 0; ClickRemove]. reflexivity.
  - reflexivity.
Defined.

(** C4, as stated, fails when a removal is in progress: two files are
    dropped, the first loads and its removal is started, then the second
    loads.  The new source is stored, but the pipeline still shows
    processing, not loaded. *)
Lemma ingest_during_processing_not_loaded :
  exists w0 w1,
    run [SelectFile pngFile; SelectFile jpegFile; FileLoaded 0; ClickRemove]
        initialWorld = Some w0
    /\ JS.startsWith "image/" (file_type jpegFile) = true
    /\ pipelineState (app w0) = Processing
    /\ fire (FileLoaded 0) w0 = Some w1
    /\ sourceImage (app w1) = Some (readAsDataURL jpegFile)
    /\ pipelineState (app w1) = Processing
    /\ pipelineState (app w1) <> Loaded.
Proof.
  do 2 eexists. repeat split. discriminate.
Qed.

(** C4. A file whose declared type starts with [image/] is handed to the
    reader without touching any cell, and its read can complete; when it has
    loaded, its data URL is the source and the result and the error are
    cleared, whatever was held before.  The processing flag is left as it
    was, so the pipeline is loaded when no removal was in progress and still
    processing otherwise. *)
Theorem processFile_accepts_image (f : File) (w : World) :
  JS.startsWith "image/" (file_type f) = true ->
  processFile f w = mkWorld (app w) (inFlight w) (reading w ++ [f])
  /\ fire (FileLoaded (length (reading w))) (processFile f w)
     = Some (mkWorld (reader_onload f (app w)) (inFlight w) (reading w))
  /\ (forall s : AppState,
        reader_onload f s
        = mkApp (Some (readAsDataURL f)) None (isProcessing s) None
        /\ pipelineState (reader_onload f s)
           = if isProcessing s then Processing else Loaded).
Proof.
  intros H.
  assert (P : processFile f w = mkWorld (app w) (inFlight w) (reading w ++ [f])).
  { unfold processFile. now rewrite H. }
  split; [exact P|]. split.
  - rewrite P. simpl. now rewrite takeOut_last.
  - intros s. split; [reflexivity|].
    unfold pipelineState, Render.uploadZone.
    unfold reader_onload, setError, setResultImage, setSourceImage.
    cbn [sourceImage resultImage isProcessing error].
    rewrite truthy_dataURL. simpl. destruct (isProcessing s); reflexivity.
Qed.

Lemma processFile_accepts_image_witness :
  processFile pngFile failedWorld
  = mkWorld (app failedWorld) (inFlight failedWorld)
            (reading failedWorld ++ [pngFile])
  /\ fire (FileLoaded (length (reading failedWorld)))
          (processFile pngFile failedWorld)
     = Some (mkWorld (reader_onload pngFile (app failedWorld))
                     (inFlight failedWorld) (reading failedWorld))
  /\ (forall s : AppState,
        reader_onload pngFile s
        = mkApp (Some (readAsDataURL pngFile)) None (isProcessing s) None
        /\ pipelineState (reader_onload pngFile s)
           = if isProcessing s then Processing else Loaded).
Proof.
  apply (processFile_accepts_image pngFile failedWorld). reflexivity.
Defined.

(** ** The request *)

(** C5. For the data URL of a file whose media type is free of [,], [;] and
    [:] and whose base64 text is free of [,], the request has exactly two
    parts, in this order: the inline data with that base64 text and that
    media type, then the fixed instruction.  (Two parts of these kinds, the
    second the same constant text, is the shape of the request for any
    stored string.)  The request is a function of the stored source alone:
    whatever else a world holds, the call [removeBackground] issues for that
    source is this request. *)
Theorem buildRequest_two_parts (f : File) :
  JS.lacks "," (file_type f) = true ->
  JS.lacks ";" (file_type f) = true ->
  JS.lacks ":" (file_type f) = true ->
  JS.lacks "," (file_base64 f) = true ->
  parts (contents (buildRequest (readAsDataURL f)))
  = Some [ mkPart (Some (mkBlob (Some (file_base64 f)) (Some (file_type f))))
                  None;
           mkPart None (Some instruction) ]
  /\ model (buildRequest (readAsDataURL f)) = modelName
  /\ (forall src : string,
        exists blob,
          parts (contents (buildRequest src))
          = Some [mkPart (Some blob) None; mkPart None (Some instruction)])
  /\ (forall w : World,
        sourceImage (app w) = Some (readAsDataURL f) ->
        inFlight (removeBackground w)
        = (inFlight w ++ [buildRequest (readAsDataURL f)])%list).
Proof.
  intros H1 H2 H3 H4.
  pose proof (buildRequest_dataURL f H1 H2 H3 H4) as B.
  split; [now rewrite B|]. split; [reflexivity|].
  split; [exact buildRequest_shape|].
  intros w E. unfold removeBackground. rewrite E.
  change (readAsDataURL f =? "") with false. reflexivity.
Qed.

Lemma buildRequest_two_parts_witness :
  parts (contents (buildRequest (readAsDataURL pngFile)))
  = Some [ mkPart (Some (mkBlob (Some "iVBORw0KGgo=") (Some "image/png"))) None;
           mkPart None (Some instruction) ]
  /\ model (buildRequest (readAsDataURL pngFile)) = modelName
  /\ (forall src : string,
        exists blob,
          parts (contents (buildRequest src))
          = Some [mkPart (Some blob) None; mkPart None (Some instruction)])
  /\ (forall w : World,
        sourceImage (app w) = Some (readAsDataURL pngFile) ->
        inFlight (removeBackground w)
        = (inFlight w ++ [buildRequest (readAsDataURL pngFile)])%list).
Proof.
  apply (buildRequest_two_parts pngFile); reflexivity.
Defined.

(** ** The reply *)

(** C6. When the parts of a reply contain a part with [inlineData], the one
    that comes first is the result: its data, labelled as a PNG data URL, is
    what the interpreter extracts and what the continuation stores, whatever
    text parts precede it and whatever parts follow it.  The flag goes down,
    the source and the error are left alone, and a processing pipeline has
    succeeded. *)
Theorem first_inline_part_is_result
  (s : AppState) (r : GenerateContentResponse)
  (pre post : list Part) (p : Part) (b : Blob) :
  responseParts r = (pre ++ p :: post)%list ->
  Forall (fun q => inlineData q = None) pre ->
  inlineData p = Some b ->
  let url := "data:image/png;base64," ++ JS.template (data b) in
  interpret r = Some url
  /\ removeBackground_resume (Fulfilled r) s
     = mkApp (sourceImage s) (Some url) false (error s)
  /\ (pipelineState s = Processing ->
      pipelineState (removeBackground_resume (Fulfilled r) s) = Succeeded).
Proof.
  intros Hr Hpre Hp url.
  assert (I : interpret r = Some url).
  { unfold interpret. rewrite Hr, (scanParts_first pre post p b _ Hpre Hp).
    reflexivity. }
  split; [exact I|]. rewrite (resume_image r s url I).
  split; [reflexivity|].
  intros H. apply pipelineState_Processing in H as [Hsrc _].
  unfold pipelineState, Render.uploadZone.
  cbn [sourceImage resultImage isProcessing error].
  rewrite Hsrc. subst url. rewrite truthy_png. reflexivity.
Qed.

Lemma first_inline_part_is_result_witness :
  let r := replyOf [textPart "Here is your cutout.";
                    imagePart "AAAA"; imagePart "BBBB"] in
  interpret r = Some "data:image/png;base64,AAAA"
  /\ removeBackground_resume (Fulfilled r) (app processingWorld)
     = mkApp (sourceImage (app processingWorld))
             (Some "data:image/png;base64,AAAA") false
             (error (app processingWorld))
  /\ (pipelineState (app processingWorld) = Processing ->
      pipelineState (removeBackground_resume (Fulfilled r) (app processingWorld))
      = Succeeded).
Proof.
  intros r.
  apply (first_inline_part_is_result (app processingWorld) r
           [textPart "Here is your cutout."] [imagePart "BBBB"]
           (imagePart "AAAA") (mkBlob (Some "AAAA") (Some "image/png"))).
  - reflexivity.
  - repeat constructor.
  - reflexivity.
Defined.

Lemma noInlineData_empty_replies :
  noInlineData (mkResponse None) = true
  /\ noInlineData (mkResponse (Some [])) = true
  /\ noInlineData (mkResponse (Some [mkCandidate None])) = true
  /\ noInlineData (mkResponse (Some [mkCandidate (Some (mkContent None))])) = true
  /\ noInlineData (replyOf []) = true.
Proof. repeat split. Qed.

(** C7. In every reachable world whose pipeline is processing, a reply none
    of whose parts has [inlineData] (a reply without candidates, content or
    parts among them) settles the one outstanding call, and the pipeline is
    failed: the error is the no-image message, no result is held, the source
    is kept and nothing is outstanding any more. *)
Theorem no_image_reply_fails (w : World) (r : GenerateContentResponse) :
  reachable w ->
  pipelineState (app w) = Processing ->
  noInlineData r = true ->
  exists w',
    fire (Settled 0 (Fulfilled r)) w = Some w'
    /\ pipelineState (app w') = Failed
    /\ error (app w') = Some noImageReturnedMessage
    /\ resultImage (app w') = None
    /\ sourceImage (app w') = sourceImage (app w)
    /\ inFlight w' = [].
Proof.
  intros R HP Hr.
  destruct (reachable_invariant w R) as (Hlen & Hflag & Hres & _).
  apply pipelineState_Processing in HP as [Hsrc Hproc].
  specialize (Hres Hproc). apply Hflag in Hproc.
  destruct (inFlight w) as [|q [|q' qs]] eqn:F; simpl in Hlen;
    [now contradiction Hproc | | lia].
  eexists. split.
  { simpl. rewrite F. simpl. reflexivity. }
  cbn [app inFlight]. rewrite (resume_no_image r _ Hr), Hres.
  split; [|repeat split].
  apply pipelineState_Failed. simpl. auto.
Qed.

Lemma no_image_reply_fails_witness :
  exists w',
    fire (Settled 0 (Fulfilled (replyOf [textPart "I cannot edit images."])))
         processingWorld = Some w'
    /\ pipelineState (app w') = Failed
    /\ error (app w') = Some noImageReturnedMessage
    /\ resultImage (app w') = None
    /\ sourceImage (app w') = sourceImage (app processingWorld)
    /\ inFlight w' = [].
Proof.
  apply (no_image_reply_fails processingWorld).
  - exists [SelectFile pngFile; FileLoaded 0; ClickRemove]. reflexivity.
  - reflexivity.
  - reflexivity.
Defined.

(** ** Late replies *)

(** C1, as stated, fails: the source is loaded, the removal is started and
    the trash button is pressed while the call is outstanding.  The pipeline
    is idle with nothing stored; the reply that then arrives puts a result
    into that state. *)
Lemma late_reply_after_reset_lands :
  exists w w',
    run [SelectFile pngFile; FileLoaded 0; ClickRemove; ClickReset]
        initialWorld = Some w
    /\ pipelineState (app w) = Idle
    /\ resultImage (app w) = None
    /\ fire (Settled 0 (Fulfilled (replyOf [imagePart "AAAA"]))) w = Some w'
    /\ resultImage (app w') = Some "data:image/png;base64,AAAA"
    /\ app w' <> app w.
Proof.
  do 2 eexists. repeat split. discriminate.
Qed.

(** C1. Requests carry no generation marker and the continuation of
    [removeBackground] compares nothing: a reply that arrives after [reset],
    or after a new source has loaded, is applied to the state it finds like
    any other.  A reply with an inline part stores the result, one without
    stores the no-image error, a rejected call stores its message; in each
    case the flag goes down.  The source is the one cell a reply never
    writes. *)
Theorem late_reply_is_applied (s : AppState) (f : File) (o : Outcome) :
  let outcome_on (src : option string) (res err : option string) :=
    match o with
    | Fulfilled r =>
        match interpret r with
        | Some url => mkApp src (Some url) false err
        | None => mkApp src res false (Some noImageReturnedMessage)
        end
    | Rejected m =>
        mkApp src res false (Some (JS.or_else m genericFailureMessage))
    end in
  removeBackground_resume o (reset s) = outcome_on None None None
  /\ removeBackground_resume o (reader_onload f s)
     = outcome_on (Some (readAsDataURL f)) None None
  /\ removeBackground_resume o s
     = outcome_on (sourceImage s) (resultImage s) (error s).
Proof.
  intros outcome_on.
  assert (G : forall t, removeBackground_resume o t
                        = outcome_on (sourceImage t) (resultImage t) (error t)).
  { intros t. subst outcome_on. cbv beta. destruct o as [r|m].
    - destruct (interpret r) as [url|] eqn:E.
      + exact (resume_image r t url E).
      + apply interpret_none in E. exact (resume_no_image r t E).
    - apply resume_rejected. }
  split; [|split]; apply G.
Qed.

(** * Further properties of the component *)

(** ** Cutting a string at a separator *)

Lemma split_cutAt (c : ascii) (s : string) :
  exists rest, JS.split c s = cutAt c s :: rest.
Proof.
  induction s as [|d s [rest IH]]; simpl.
  - now exists [].
  - destruct (Ascii.eqb d c).
    + now exists (JS.split c s).
    + rewrite IH. now exists rest.
Qed.

Lemma cutAt_append (c : ascii) (a b : string) :
  cutAt c (a ++ String c b) = cutAt c a.
Proof.
  induction a as [|d a IH]; simpl.
  - now rewrite Ascii.eqb_refl.
  - destruct (Ascii.eqb d c); [reflexivity | now rewrite IH].
Qed.

Lemma cutAt_lacks (c : ascii) (s : string) :
  JS.lacks c s = true -> cutAt c s = s.
Proof.
  induction s as [|d s IH]; simpl; intros H; [reflexivity|].
  apply andb_true_iff in H as [Hd Hs]. apply negb_true_iff in Hd.
  now rewrite Hd, (IH Hs).
Qed.

Lemma cutAt_is_lacking (c : ascii) (s : string) : JS.lacks c (cutAt c s) = true.
Proof.
  induction s as [|d s IH]; simpl; [reflexivity|].
  destruct (Ascii.eqb d c) eqn:E; simpl; [reflexivity|].
  now rewrite E, IH.
Qed.

Lemma lacks_cutAt (c d : ascii) (s : string) :
  JS.lacks c s = true -> JS.lacks c (cutAt d s) = true.
Proof.
  induction s as [|x s IH]; simpl; intros H; [reflexivity|].
  apply andb_true_iff in H as [Hx Hs].
  destruct (Ascii.eqb x d); simpl; [reflexivity|].
  now rewrite Hx, (IH Hs).
Qed.

Lemma split_second (c : ascii) (a b : string) :
  JS.lacks c a = true ->
  JS.index (JS.split c (a ++ String c b)) 1 = Some (cutAt c b).
Proof.
  intros H. rewrite (split_first c a b H).
  destruct (split_cutAt c b) as [rest ->]. reflexivity.
Qed.

Lemma split_has_second (c : ascii) (s : string) :
  JS.lacks c s = false -> exists x, JS.index (JS.split c s) 1 = Some x.
Proof.
  induction s as [|d s IH]; simpl; [discriminate|].
  destruct (Ascii.eqb d c); simpl.
  - intros _. destruct (split_cutAt c s) as [rest ->]. now eexists.
  - intros H. destruct (IH H) as [x Hx].
    destruct (JS.split c s) as [|p ps]; [discriminate|]. now exists x.
Qed.

Lemma startsWith_append (p s : string) :
  JS.startsWith p s = true <-> exists rest, s = p ++ rest.
Proof.
  revert s. induction p as [|a p IH]; simpl; intros s.
  - split; [intros _; now exists s | reflexivity].
  - destruct s as [|b s].
    + split; [discriminate | intros [rest H]; discriminate].
    + split.
      * intros H. apply andb_true_iff in H as [Hab Hp].
        apply Ascii.eqb_eq in Hab. subst b.
        apply IH in Hp as [rest ->]. now exists rest.
      * intros [rest H]. inversion H; subst.
        rewrite Ascii.eqb_refl. apply IH. now exists rest.
Qed.

(** The inline part of the request for a data URL, for any file. *)
Lemma inlinePart_dataURL (f : File) :
  exists d,
    inlinePart (buildRequest (readAsDataURL f))
    = Some (mkBlob (Some d) (Some (cutAt ":" (cutAt ";" (file_type f)))))
    /\ (JS.lacks "," (file_type f) = true -> d = cutAt "," (file_base64 f)).
Proof.
  unfold buildRequest, inlinePart, readAsDataURL.
  cbn [parts contents inlineData].
  set (url := "data:" ++ file_type f ++ ";base64," ++ file_base64 f).
  assert (M : JS.index (JS.split ":" (hd EmptyString (JS.split ";" url))) 1
              = Some (cutAt ":" (cutAt ";" (file_type f)))).
  { destruct (split_cutAt ";" url) as [rest ->]. cbn [hd].
    assert (cutAt ";" url = "data" ++ String ":" (cutAt ";" (file_type f))) as ->.
    { subst url.
      change (";base64," ++ file_base64 f)
        with (String ";" ("base64," ++ file_base64 f)).
      simpl. now rewrite cutAt_append. }
    now rewrite split_second. }
  rewrite M.
  destruct (JS.lacks "," (file_type f)) eqn:L.
  - exists (cutAt "," (file_base64 f)). split; [|reflexivity].
    assert (url = ("data:" ++ file_type f ++ ";base64")
                  ++ String "," (file_base64 f)) as ->.
    { subst url. simpl. rewrite append_assoc. reflexivity. }
    rewrite split_second; [reflexivity|].
    simpl. now rewrite lacks_append, L.
  - destruct (split_has_second "," url) as [x Hx].
    { subst url. simpl. now rewrite lacks_append, L. }
    exists x. rewrite Hx. split; [reflexivity | discriminate].
Qed.

(** ** Where the cells come from *)

Lemma takeOut_Forall {A : Type} (P : A -> Prop) (i : nat) (xs : list A)
  (x : A) (rest : list A) :
  Forall P xs -> takeOut i xs = Some (x, rest) -> P x /\ Forall P rest.
Proof.
  intros H. revert i x rest.
  induction H as [|y ys Hy Hys IH]; intros i x rest E; simpl in E.
  - discriminate.
  - destruct i as [|j].
    + inversion E; subst. now split.
    + destruct (takeOut j ys) as [[z zs]|] eqn:T; [|discriminate].
      inversion E; subst. destruct (IH _ _ _ T) as [Hx Hrest].
      split; [exact Hx | now constructor].
Qed.

Lemma takeOut_length {A : Type} (i : nat) (xs : list A) (x : A) (rest : list A) :
  takeOut i xs = Some (x, rest) -> length xs = S (length rest).
Proof.
  revert i x rest. induction xs as [|y ys IH]; intros i x rest E; simpl in E.
  - discriminate.
  - destruct i as [|j].
    + now inversion E.
    + destruct (takeOut j ys) as [[z zs]|] eqn:T; [|discriminate].
      inversion E; subst. simpl. f_equal. exact (IH _ _ _ T).
Qed.

Lemma or_else_truthy (m : option string) :
  JS.truthy (Some (JS.or_else m genericFailureMessage)) = true.
Proof.
  destruct m as [s|]; simpl; [|reflexivity].
  destruct (String.eqb s "") eqn:E; simpl; [reflexivity|].
  now rewrite E.
Qed.

Lemma interpret_png (r : GenerateContentResponse) (url : string) :
  interpret r = Some url -> exists d, url = "data:image/png;base64," ++ d.
Proof.
  unfold interpret.
  induction (responseParts r) as [|p ps IH]; simpl; [discriminate|].
  destruct (inlineData p) as [b|]; [|exact IH].
  simpl. intros E. inversion E. now eexists.
Qed.

(** What the continuation leaves in the four cells, by outcome. *)
Lemma resume_cases (o : Outcome) (s : AppState) :
  (exists d, removeBackground_resume o s
             = mkApp (sourceImage s) (Some ("data:image/png;base64," ++ d))
                     false (error s))
  \/ (exists m, JS.truthy (Some m) = true
                /\ removeBackground_resume o s
                   = mkApp (sourceImage s) (resultImage s) false (Some m)).
Proof.
  destruct o as [r|m].
  - destruct (interpret r) as [url|] eqn:E.
    + left. destruct (interpret_png r url E) as [d ->].
      exists d. exact (resume_image r s _ E).
    + right. apply interpret_none in E.
      exists noImageReturnedMessage. split; [reflexivity|].
      exact (resume_no_image r s E).
  - right. exists (JS.or_else m genericFailureMessage).
    split; [apply or_else_truthy | apply resume_rejected].
Qed.

Lemma provenance_initial : provenance initialWorld.
Proof.
  repeat split; simpl; auto.
Qed.

Lemma provenance_fire (e : Event) (w w' : World) :
  provenance w -> fire e w = Some w' -> provenance w'.
Proof.
  intros (Hread & Hsrc & Hreq & Hres & Herr) E.
  destruct e as [f|i| | | |i o]; simpl in E.
  - (* SelectFile *)
    destruct (Render.uploadZone (app w)); [|discriminate].
    inversion E; subst w'; clear E. unfold processFile.
    destruct (JS.startsWith "image/" (file_type f)) eqn:A; simpl.
    + repeat split; auto. apply Forall_app. split; [exact Hread|].
      constructor; [exact A | constructor].
    + repeat split; auto.
  - (* FileLoaded *)
    destruct (takeOut i (reading w)) as [[f rest]|] eqn:T; [|discriminate].
    inversion E; subst w'; clear E.
    destruct (takeOut_Forall _ _ _ _ _ Hread T) as [Hf Hrest].
    repeat split; simpl; auto. right. now exists f.
  - (* ClickRemove *)
    destruct (Render.removeButton (app w)); [|discriminate].
    inversion E; subst w'; clear E. unfold removeBackground.
    destruct (sourceImage (app w)) as [src|] eqn:S;
      [|repeat split; auto; rewrite S; auto].
    destruct (String.eqb src ""); [repeat split; auto; rewrite S; auto|].
    destruct Hsrc as [Hsrc|(f & Hf & Hsrc)]; [discriminate|].
    inversion Hsrc; subst src.
    repeat split; simpl; auto.
    + right. exists f. now rewrite S.
    + apply Forall_app. split; [exact Hreq|].
      constructor; [now exists f | constructor].
  - (* ClickReset *)
    destruct (Render.trashButton (app w)); [|discriminate].
    inversion E; subst w'; clear E. repeat split; simpl; auto.
  - (* ClickDownload *)
    destruct (Render.resultButtons (app w)); [|discriminate].
    inversion E; subst w'; clear E. repeat split; auto.
  - (* Settled *)
    destruct (takeOut i (inFlight w)) as [[q rest]|] eqn:T; [|discriminate].
    inversion E; subst w'; clear E.
    destruct (takeOut_Forall _ _ _ _ _ Hreq T) as [_ Hrest].
    unfold provenance. cbn [app inFlight reading].
    destruct (resume_cases o (app w)) as [(d & ->)|(m & Hm & ->)];
      cbn [sourceImage resultImage error];
      repeat split; auto.
    right. now exists d.
Qed.

Lemma provenance_run (es : list Event) :
  forall w w', provenance w -> run es w = Some w' -> provenance w'.
Proof.
  induction es as [|e es IH]; simpl; intros w w' Hp E.
  - inversion E; subst; exact Hp.
  - destruct (fire e w) as [w1|] eqn:F; [|discriminate].
    exact (IH _ _ (provenance_fire _ _ _ Hp F) E).
Qed.

Lemma reachable_provenance (w : World) : reachable w -> provenance w.
Proof.
  intros [es E]. exact (provenance_run es _ _ provenance_initial E).
Qed.

(** ** Single events, spelled out *)

Lemma dataURL_not_empty (f : File) : String.eqb (readAsDataURL f) "" = false.
Proof. reflexivity. Qed.

Lemma fire_select_accepted (f : File) (w : World) :
  Render.uploadZone (app w) = true ->
  accepted f ->
  fire (SelectFile f) w = Some (mkWorld (app w) (inFlight w) (reading w ++ [f])).
Proof.
  intros Hz Hf. simpl. rewrite Hz. unfold processFile. now rewrite Hf.
Qed.

Lemma fire_remove_dataURL (f : File) (w : World) :
  sourceImage (app w) = Some (readAsDataURL f) ->
  JS.truthy (resultImage (app w)) = false ->
  isProcessing (app w) = false ->
  fire ClickRemove w
  = Some (mkWorld (mkApp (Some (readAsDataURL f)) (resultImage (app w)) true None)
                  (inFlight w ++ [buildRequest (readAsDataURL f)])
                  (reading w)).
Proof.
  intros Hs Hr Hp. cbn [fire]. unfold Render.removeButton.
  rewrite Hs, truthy_dataURL, Hr, Hp. cbn [negb andb].
  unfold removeBackground. rewrite Hs, dataURL_not_empty.
  unfold setError, setIsProcessing. cbn [sourceImage resultImage].
  now rewrite Hs.
Qed.

Lemma fire_settled_single (o : Outcome) (q : ModelRequest) (w : World) :
  inFlight w = [q] ->
  fire (Settled 0 o) w
  = Some (mkWorld (removeBackground_resume o (app w)) [] (reading w)).
Proof.
  intros H. cbn [fire]. now rewrite H.
Qed.

Lemma run_cons (e : Event) (es : list Event) (w w1 : World) :
  fire e w = Some w1 -> run (e :: es) w = run es w1.
Proof.
  intros H. simpl. now rewrite H.
Qed.

(** Select an accepted file in a world without pending reads, and let it
    load. *)
Lemma run_select_load (f : File) (es : list Event) (w : World) :
  Render.uploadZone (app w) = true ->
  reading w = [] ->
  accepted f ->
  run (SelectFile f :: FileLoaded 0 :: es) w
  = run es (mkWorld (mkApp (Some (readAsDataURL f)) None
                           (isProcessing (app w)) None)
                    (inFlight w) []).
Proof.
  intros Hz Hr Hf.
  rewrite (run_cons _ _ _ _ (fire_select_accepted f w Hz Hf)).
  rewrite Hr. reflexivity.
Qed.

(** ** The request, for any file *)

(** X1. Whatever the file, both fields of the inline part of its request
    are present.  The media type sent is the declared type cut at its first
    [;] or [:]; when the declared type has no comma, the data sent is the
    base64 text cut at its first comma. *)
Theorem request_fields_of_any_file (f : File) :
  exists d m,
    inlinePart (buildRequest (readAsDataURL f)) = Some (mkBlob (Some d) (Some m))
    /\ m = cutAt ":" (cutAt ";" (file_type f))
    /\ JS.lacks ";" m = true
    /\ JS.lacks ":" m = true
    /\ (JS.lacks "," (file_type f) = true -> d = cutAt "," (file_base64 f)).
Proof.
  destruct (inlinePart_dataURL f) as (d & E & Hd).
  exists d, (cutAt ":" (cutAt ";" (file_type f))).
  split; [exact E|]. split; [reflexivity|].
  split; [|split; [apply cutAt_is_lacking | exact Hd]].
  apply lacks_cutAt, cutAt_is_lacking.
Qed.

(** X2. A declared type that carries parameters after a [;] is sent without
    them: for the type [essence;params] the request holds the base64 text
    and the bare [essence]. *)
Theorem request_drops_type_parameters (essence params payload : string) :
  JS.lacks ";" essence = true ->
  JS.lacks ":" essence = true ->
  JS.lacks "," essence = true ->
  JS.lacks "," params = true ->
  JS.lacks "," payload = true ->
  inlinePart
    (buildRequest (readAsDataURL (mkFile (essence ++ String ";" params) payload)))
  = Some (mkBlob (Some payload) (Some essence)).
Proof.
  intros H1 H2 H3 H4 H5.
  destruct (inlinePart_dataURL (mkFile (essence ++ String ";" params) payload))
    as (d & E & Hd).
  cbn [file_type file_base64] in E, Hd.
  rewrite E, Hd.
  - rewrite cutAt_append, (cutAt_lacks ";" _ H1), (cutAt_lacks ":" _ H2),
      (cutAt_lacks "," _ H5). reflexivity.
  - rewrite lacks_append. simpl. now rewrite H3, H4.
Qed.

Lemma request_drops_type_parameters_witness :
  inlinePart
    (buildRequest
       (readAsDataURL (mkFile ("image/svg+xml" ++ String ";" "charset=utf-8")
                              "PHN2Zy8+")))
  = Some (mkBlob (Some "PHN2Zy8+") (Some "image/svg+xml")).
Proof.
  apply (request_drops_type_parameters "image/svg+xml" "charset=utf-8" "PHN2Zy8+");
    reflexivity.
Defined.

Lemma accepted_cut (ty : string) :
  JS.startsWith "image/" ty = true ->
  JS.startsWith "image/" (cutAt ":" (cutAt ";" ty)) = true.
Proof.
  intros H. apply startsWith_append in H as [rest ->]. reflexivity.
Qed.

(** ** What reachable worlds hold *)

(** X3. Every request that is outstanding in a reachable world was built
    from the data URL of a file that passed the type check: it has the model
    name, an inline part with data and a media type that starts with
    [image/], and the fixed instruction after it. *)
Theorem outstanding_requests_carry_images (w : World) (q : ModelRequest) :
  reachable w ->
  In q (inFlight w) ->
  exists d m,
    q = mkRequest modelName
          (mkContent (Some [ mkPart (Some (mkBlob (Some d) (Some m))) None;
                             mkPart None (Some instruction) ]))
    /\ JS.startsWith "image/" m = true.
Proof.
  intros R Hq.
  destruct (reachable_provenance w R) as (_ & _ & Hreq & _).
  rewrite Forall_forall in Hreq.
  destruct (Hreq q Hq) as (f & Hf & ->).
  destruct (inlinePart_dataURL f) as (d & E & _).
  exists d, (cutAt ":" (cutAt ";" (file_type f))).
  split; [|now apply accepted_cut].
  unfold inlinePart, buildRequest in E. cbn [parts contents inlineData] in E.
  unfold buildRequest.
  remember (JS.index (JS.split "," (readAsDataURL f)) 1) as base64Data.
  remember (JS.index (JS.split ":" (hd "" (JS.split ";" (readAsDataURL f)))) 1)
    as mediaType.
  injection E as -> ->. reflexivity.
Qed.

Lemma outstanding_requests_carry_images_witness :
  exists d m,
    buildRequest (readAsDataURL pngFile)
    = mkRequest modelName
        (mkContent (Some [ mkPart (Some (mkBlob (Some d) (Some m))) None;
                           mkPart None (Some instruction) ]))
    /\ JS.startsWith "image/" m = true.
Proof.
  apply (outstanding_requests_carry_images processingWorld).
  - exists [SelectFile pngFile; FileLoaded 0; ClickRemove]. reflexivity.
  - simpl. left. reflexivity.
Defined.

(** X4. In every reachable world a stored source is the data URL of a file
    whose type passed the check, a stored result is a PNG data URL, a stored
    error is a non-empty text, and every file still being read passed the
    check.  So none of the three cells ever holds the empty string, and the
    truthiness tests of the render are tests for [null]. *)
Theorem cells_hold_what_was_checked (w : World) :
  reachable w ->
  (forall src, sourceImage (app w) = Some src ->
     JS.startsWith "data:image/" src = true
     /\ exists f, accepted f /\ src = readAsDataURL f)
  /\ (forall res, resultImage (app w) = Some res ->
        JS.startsWith "data:image/png;base64," res = true)
  /\ (forall msg, error (app w) = Some msg -> msg <> "")
  /\ (forall f, In f (reading w) -> JS.startsWith "image/" (file_type f) = true)
  /\ Render.uploadZone (app w)
     = match sourceImage (app w) with None => true | Some _ => false end
  /\ Render.errorBanner (app w)
     = match error (app w) with None => false | Some _ => true end.
Proof.
  intros R.
  destruct (reachable_provenance w R) as (Hread & Hsrc & _ & Hres & Herr).
  split; [|split; [|split; [|split; [|split]]]].
  - intros src E. destruct Hsrc as [H|(f & Hf & H)]; [congruence|].
    rewrite E in H. inversion H; subst src. split; [|now exists f].
    unfold readAsDataURL. unfold accepted in Hf.
    apply startsWith_append in Hf as [rest ->]. reflexivity.
  - intros res E. destruct Hres as [H|(d & H)]; [congruence|].
    rewrite E in H. inversion H. reflexivity.
  - intros msg E. destruct Herr as [H|H]; [congruence|].
    rewrite E in H. simpl in H. apply negb_true_iff in H.
    now apply String.eqb_neq.
  - rewrite Forall_forall in Hread. exact Hread.
  - unfold Render.uploadZone.
    destruct Hsrc as [->|(f & _ & ->)]; reflexivity.
  - unfold Render.errorBanner.
    destruct (error (app w)); [|reflexivity].
    destruct Herr as [H|H]; [discriminate | exact H].
Qed.

Lemma cells_hold_what_was_checked_witness :
  (forall src, sourceImage (app failedWorld) = Some src ->
     JS.startsWith "data:image/" src = true
     /\ exists f, accepted f /\ src = readAsDataURL f)
  /\ (forall res, resultImage (app failedWorld) = Some res ->
        JS.startsWith "data:image/png;base64," res = true)
  /\ (forall msg, error (app failedWorld) = Some msg -> msg <> "")
  /\ (forall f, In f (reading failedWorld) ->
        JS.startsWith "image/" (file_type f) = true)
  /\ Render.uploadZone (app failedWorld)
     = match sourceImage (app failedWorld) with None => true | Some _ => false end
  /\ Render.errorBanner (app failedWorld)
     = match error (app failedWorld) with None => false | Some _ => true end.
Proof.
  apply (cells_hold_what_was_checked failedWorld).
  exists [SelectFile pngFile; FileLoaded 0; ClickRemove;
          Settled 0 (Rejected (Some "network down"))].
  reflexivity.
Defined.

(** X5. In every reachable world exactly one of the four main controls is
    mounted: the upload zone, the Remove Background button, the processing
    notice, or the download buttons.  In particular the processing notice
    and the download buttons never show together. *)
Theorem exactly_one_control_mounted (w : World) :
  reachable w ->
  mounted [ Render.uploadZone (app w); Render.removeButton (app w);
            Render.spinner (app w); Render.resultButtons (app w) ] = 1.
Proof.
  intros R. destruct (reachable_invariant w R) as (_ & _ & Hres & _).
  unfold Render.uploadZone, Render.removeButton, Render.spinner,
    Render.resultButtons.
  destruct (isProcessing (app w)).
  - rewrite (Hres eq_refl). simpl.
    destruct (JS.truthy (sourceImage (app w))); reflexivity.
  - destruct (JS.truthy (sourceImage (app w))),
      (JS.truthy (resultImage (app w))); reflexivity.
Qed.

Lemma exactly_one_control_mounted_witness :
  mounted [ Render.uploadZone (app processingWorld);
            Render.removeButton (app processingWorld);
            Render.spinner (app processingWorld);
            Render.resultButtons (app processingWorld) ] = 1.
Proof.
  apply (exactly_one_control_mounted processingWorld).
  exists [SelectFile pngFile; FileLoaded 0; ClickRemove]. reflexivity.
Defined.

(** ** Whole runs *)

(** X6. From a world that shows the upload zone with nothing pending,
    selecting an accepted file, letting it load and pressing Remove
    Background leaves exactly one outstanding request, the one built from
    the file's data URL; a reply with an inline part then gives the
    succeeded state with that source, the extracted result, no error and
    nothing outstanding, whatever error or result the cells held at the
    start. *)
Theorem ingest_remove_round_trip
  (w : World) (f : File) (r : GenerateContentResponse) (url : string) :
  Render.uploadZone (app w) = true ->
  isProcessing (app w) = false ->
  reading w = [] ->
  inFlight w = [] ->
  accepted f ->
  interpret r = Some url ->
  run [SelectFile f; FileLoaded 0; ClickRemove] w
  = Some (mkWorld (mkApp (Some (readAsDataURL f)) None true None)
                  [buildRequest (readAsDataURL f)] [])
  /\ run [SelectFile f; FileLoaded 0; ClickRemove; Settled 0 (Fulfilled r)] w
     = Some (mkWorld (mkApp (Some (readAsDataURL f)) (Some url) false None) [] [])
  /\ pipelineState (mkApp (Some (readAsDataURL f)) (Some url) false None)
     = Succeeded.
Proof.
  intros Hz Hp Hr Hi Hf Hu.
  assert (Step : forall es,
            run (SelectFile f :: FileLoaded 0 :: ClickRemove :: es) w
            = run es (mkWorld (mkApp (Some (readAsDataURL f)) None true None)
                              [buildRequest (readAsDataURL f)] [])).
  { intros es. rewrite (run_select_load f _ w Hz Hr Hf), Hp, Hi.
    erewrite run_cons by (apply (fire_remove_dataURL f); reflexivity).
    reflexivity. }
  split; [exact (Step [])|]. split.
  - rewrite Step.
    erewrite run_cons by (eapply fire_settled_single; reflexivity).
    cbn [run app reading]. now rewrite (resume_image r _ url Hu).
  - destruct (interpret_png r url Hu) as [d ->]. reflexivity.
Qed.

Lemma ingest_remove_round_trip_witness :
  run [SelectFile pngFile; FileLoaded 0; ClickRemove] initialWorld
  = Some (mkWorld (mkApp (Some (readAsDataURL pngFile)) None true None)
                  [buildRequest (readAsDataURL pngFile)] [])
  /\ run [SelectFile pngFile; FileLoaded 0; ClickRemove;
          Settled 0 (Fulfilled (replyOf [imagePart "AAAA"]))] initialWorld
     = Some (mkWorld (mkApp (Some (readAsDataURL pngFile))
                            (Some "data:image/png;base64,AAAA") false None) [] [])
  /\ pipelineState (mkApp (Some (readAsDataURL pngFile))
                          (Some "data:image/png;base64,AAAA") false None)
     = Succeeded.
Proof.
  apply (ingest_remove_round_trip initialWorld pngFile
           (replyOf [imagePart "AAAA"]) "data:image/png;base64,AAAA");
    reflexivity.
Defined.

(** X7. When the call is rejected while the pipeline of a reachable world is
    processing, the pipeline is failed: the error is the message of the
    rejection, or the generic text when that message is missing or empty;
    no result is held, the source is kept, the flag is down and nothing is
    outstanding. *)
Theorem rejected_call_fails (w : World) (m : option string) :
  reachable w ->
  pipelineState (app w) = Processing ->
  exists w',
    fire (Settled 0 (Rejected m)) w = Some w'
    /\ pipelineState (app w') = Failed
    /\ error (app w')
       = Some (match m with
               | Some "" | None => genericFailureMessage
               | Some text => text
               end)
    /\ resultImage (app w') = None
    /\ sourceImage (app w') = sourceImage (app w)
    /\ isProcessing (app w') = false
    /\ inFlight w' = [].
Proof.
  intros R HP.
  destruct (reachable_invariant w R) as (Hlen & Hflag & Hres & _).
  apply pipelineState_Processing in HP as [Hsrc Hproc].
  specialize (Hres Hproc). apply Hflag in Hproc.
  destruct (inFlight w) as [|q [|q' qs]] eqn:F; simpl in Hlen;
    [now contradiction Hproc | | lia].
  eexists. split; [exact (fire_settled_single _ q w F)|].
  cbn [app inFlight]. rewrite resume_rejected, Hres.
  split; [|split; [|repeat split]].
  - apply pipelineState_Failed. cbn [sourceImage resultImage isProcessing error].
    rewrite or_else_truthy. auto.
  - cbn [error]. f_equal. destruct m as [[|c s]|]; reflexivity.
Qed.

Lemma rejected_call_fails_witness :
  exists w',
    fire (Settled 0 (Rejected (Some ""))) processingWorld = Some w'
    /\ pipelineState (app w') = Failed
    /\ error (app w') = Some genericFailureMessage
    /\ resultImage (app w') = None
    /\ sourceImage (app w') = sourceImage (app processingWorld)
    /\ isProcessing (app w') = false
    /\ inFlight w' = [].
Proof.
  apply (rejected_call_fails processingWorld (Some "")).
  - exists [SelectFile pngFile; FileLoaded 0; ClickRemove]. reflexivity.
  - reflexivity.
Defined.

(** X8. From any reachable failed world, pressing Remove Background again
    and receiving a reply with an inline part gives the succeeded state: the
    same source, the extracted result, and the earlier error gone. *)
Theorem retry_after_failure_succeeds
  (w : World) (r : GenerateContentResponse) (url : string) :
  reachable w ->
  pipelineState (app w) = Failed ->
  interpret r = Some url ->
  exists src,
    sourceImage (app w) = Some src
    /\ run [ClickRemove; Settled 0 (Fulfilled r)] w
       = Some (mkWorld (mkApp (Some src) (Some url) false None) [] (reading w))
    /\ pipelineState (mkApp (Some src) (Some url) false None) = Succeeded.
Proof.
  intros R HF Hu.
  destruct (reachable_invariant w R) as (_ & Hflag & _ & Hshape).
  destruct (reachable_provenance w R) as (_ & Hsrc & _).
  apply pipelineState_Failed in HF as (Ht & Hproc & Hres & _).
  destruct Hsrc as [E|(f & _ & E)]; [rewrite E in Ht; discriminate|].
  assert (Hnone : resultImage (app w) = None).
  { destruct Hshape as [H|H]; [exact H | congruence]. }
  assert (Hempty : inFlight w = []).
  { destruct (inFlight w) as [|q qs] eqn:F; [reflexivity|].
    assert (isProcessing (app w) = true) by (apply Hflag; discriminate).
    congruence. }
  exists (readAsDataURL f). split; [exact E|]. split.
  - rewrite (run_cons _ _ _ _ (fire_remove_dataURL f w E Hres Hproc)).
    rewrite Hempty, Hnone.
    erewrite run_cons by (eapply fire_settled_single; reflexivity).
    cbn [run app reading]. now rewrite (resume_image r _ url Hu).
  - destruct (interpret_png r url Hu) as [d ->]. reflexivity.
Qed.

Lemma retry_after_failure_succeeds_witness :
  exists src,
    sourceImage (app failedWorld) = Some src
    /\ run [ClickRemove; Settled 0 (Fulfilled (replyOf [imagePart "AAAA"]))]
           failedWorld
       = Some (mkWorld (mkApp (Some src) (Some "data:image/png;base64,AAAA")
                              false None) [] (reading failedWorld))
    /\ pipelineState (mkApp (Some src) (Some "data:image/png;base64,AAAA")
                            false None) = Succeeded.
Proof.
  apply (retry_after_failure_succeeds failedWorld (replyOf [imagePart "AAAA"])).
  - exists [SelectFile pngFile; FileLoaded 0; ClickRemove;
            Settled 0 (Rejected (Some "network down"))].
    reflexivity.
  - reflexivity.
  - reflexivity.
Defined.

(** X9. When two accepted files are selected before either has loaded, the
    source is the one whose read finishes last, whichever was selected
    first. *)
Theorem last_loaded_file_is_source (w : World) (f g : File) :
  Render.uploadZone (app w) = true ->
  reading w = [] ->
  accepted f ->
  accepted g ->
  (exists w1,
     run [SelectFile f; SelectFile g; FileLoaded 0; FileLoaded 0] w = Some w1
     /\ sourceImage (app w1) = Some (readAsDataURL g)
     /\ reading w1 = [])
  /\ (exists w2,
        run [SelectFile f; SelectFile g; FileLoaded 1; FileLoaded 0] w = Some w2
        /\ sourceImage (app w2) = Some (readAsDataURL f)
        /\ reading w2 = []).
Proof.
  intros Hz Hr Hf Hg.
  assert (Step : forall es,
            run (SelectFile f :: SelectFile g :: es) w
            = run es (mkWorld (app w) (inFlight w) [f; g])).
  { intros es. rewrite (run_cons _ _ _ _ (fire_select_accepted f w Hz Hf)).
    erewrite run_cons by (apply fire_select_accepted; [exact Hz | exact Hg]).
    cbn [app inFlight reading]. now rewrite Hr. }
  split; eexists; (split; [rewrite Step; reflexivity | split; reflexivity]).
Qed.

Lemma last_loaded_file_is_source_witness :
  (exists w1,
     run [SelectFile pngFile; SelectFile jpegFile; FileLoaded 0; FileLoaded 0]
         initialWorld = Some w1
     /\ sourceImage (app w1) = Some (readAsDataURL jpegFile)
     /\ reading w1 = [])
  /\ (exists w2,
        run [SelectFile pngFile; SelectFile jpegFile; FileLoaded 1; FileLoaded 0]
            initialWorld = Some w2
        /\ sourceImage (app w2) = Some (readAsDataURL pngFile)
        /\ reading w2 = []).
Proof.
  apply (last_loaded_file_is_source initialWorld pngFile jpegFile); reflexivity.
Defined.

(** X10. The model is contacted by the Remove Background button and by
    nothing else: that click adds exactly one outstanding request, a
    settlement retires exactly one, and selecting a file, a finished read,
    reset and download leave the outstanding requests as they are. *)
Theorem requests_follow_clicks (e : Event) (w w' : World) :
  fire e w = Some w' ->
  match e with
  | ClickRemove =>
      exists src, sourceImage (app w) = Some src
                  /\ inFlight w' = (inFlight w ++ [buildRequest src])%list
  | Settled _ _ => length (inFlight w) = S (length (inFlight w'))
  | _ => inFlight w' = inFlight w
  end.
Proof.
  intros E. destruct e as [f|i| | | |i o]; simpl in E.
  - destruct (Render.uploadZone (app w)); [|discriminate].
    inversion E; subst w'. unfold processFile.
    now destruct (negb (JS.startsWith "image/" (file_type f))).
  - destruct (takeOut i (reading w)) as [[f rest]|]; [|discriminate].
    now inversion E.
  - destruct (Render.removeButton (app w)) eqn:B; [|discriminate].
    inversion E; subst w'; clear E.
    unfold Render.removeButton in B.
    apply andb_true_iff in B as [B _]. apply andb_true_iff in B as [Hsrc _].
    apply truthy_Some in Hsrc as (src & Hsrc & Hne).
    apply String.eqb_neq in Hne.
    exists src. split; [exact Hsrc|].
    unfold removeBackground. now rewrite Hsrc, Hne.
  - destruct (Render.trashButton (app w)); [|discriminate].
    now inversion E.
  - destruct (Render.resultButtons (app w)); [|discriminate].
    now inversion E.
  - destruct (takeOut i (inFlight w)) as [[q rest]|] eqn:T; [|discriminate].
    inversion E; subst w'. simpl. exact (takeOut_length _ _ _ _ T).
Qed.

Lemma requests_follow_clicks_witness :
  exists src, sourceImage (app loadedWorld) = Some src
              /\ inFlight processingWorld
                 = (inFlight loadedWorld ++ [buildRequest src])%list.
Proof.
  apply (requests_follow_clicks ClickRemove loadedWorld processingWorld).
  reflexivity.
Defined.

Lemma idleAndEmpty_run (es : list Event) :
  forall w w',
    idleAndEmpty w ->
    (forall f, In (SelectFile f) es -> JS.startsWith "image/" (file_type f) = false) ->
    run es w = Some w' ->
    idleAndEmpty w'
    /\ (es <> [] -> error (app w') = Some invalidFileTypeMessage).
Proof.
  induction es as [|e es IH]; intros w w' J Hsel E; simpl in E.
  - inversion E; subst. split; [exact J | intros H; now contradiction H].
  - destruct (fire e w) as [w1|] eqn:F; [|discriminate].
    destruct J as (Js & Jr & Jp & Ji & Jd).
    assert (S1 : idleAndEmpty w1 /\ error (app w1) = Some invalidFileTypeMessage).
    { destruct e as [f|i| | | |i o]; simpl in F.
      - destruct (Render.uploadZone (app w)); [|discriminate].
        inversion F; subst w1. unfold processFile.
        rewrite (Hsel f (or_introl eq_refl)). simpl.
        repeat split; assumption.
      - rewrite Jd in F. discriminate.
      - unfold Render.removeButton in F. rewrite Js in F. discriminate.
      - unfold Render.trashButton in F. rewrite Js in F. discriminate.
      - unfold Render.resultButtons in F. rewrite Js in F. discriminate.
      - rewrite Ji in F. discriminate. }
    destruct S1 as [J1 E1].
    destruct (IH w1 w' J1 (fun f H => Hsel f (or_intror H)) E) as [J' E'].
    split; [exact J'|]. intros _.
    destruct es as [|e' es']; [|apply E'; discriminate].
    simpl in E. inversion E; subst. exact E1.
Qed.

(** X11. As long as every file that is selected fails the type check,
    nothing else can happen and nothing is stored: whatever the user does,
    the pipeline stays idle with no source, no result, no pending read and
    no request, and after the first such file the error is the invalid-file
    message. *)
Theorem rejected_files_never_load (es : list Event) (w : World) :
  run es initialWorld = Some w ->
  (forall f, In (SelectFile f) es -> JS.startsWith "image/" (file_type f) = false) ->
  pipelineState (app w) = Idle
  /\ sourceImage (app w) = None
  /\ resultImage (app w) = None
  /\ isProcessing (app w) = false
  /\ inFlight w = []
  /\ reading w = []
  /\ (es <> [] -> error (app w) = Some invalidFileTypeMessage)
  /\ Forall (fun e => exists f, e = SelectFile f) es.
Proof.
  intros E Hsel.
  assert (J0 : idleAndEmpty initialWorld) by (repeat split).
  destruct (idleAndEmpty_run es _ _ J0 Hsel E) as [(Js & Jr & Jp & Ji & Jd) He].
  split; [apply pipelineState_Idle; now rewrite Js|].
  do 5 (split; [assumption|]). split; [exact He|].
  clear He Js Jr Jp Ji Jd. revert E Hsel J0. generalize initialWorld.
  induction es as [|e es IH]; intros w0 E Hsel J0; [constructor|].
  simpl in E. destruct (fire e w0) as [w1|] eqn:F; [|discriminate].
  assert (R1 : run [e] w0 = Some w1) by (simpl; now rewrite F).
  assert (Hsel1 : forall f, In (SelectFile f) [e] ->
                            JS.startsWith "image/" (file_type f) = false).
  { intros f [H|[]]. apply Hsel. now left. }
  destruct (idleAndEmpty_run [e] _ _ J0 Hsel1 R1) as [J1 _].
  constructor.
  - destruct J0 as (Js & _ & _ & Ji & Jd).
    destruct e as [f|i| | | |i o]; simpl in F.
    + now exists f.
    + rewrite Jd in F. discriminate.
    + unfold Render.removeButton in F. rewrite Js in F. discriminate.
    + unfold Render.trashButton in F. rewrite Js in F. discriminate.
    + unfold Render.resultButtons in F. rewrite Js in F. discriminate.
    + rewrite Ji in F. discriminate.
  - exact (IH w1 E (fun f H => Hsel f (or_intror H)) J1).
Qed.

Lemma rejected_files_never_load_witness :
  exists w,
    run [SelectFile textFile; SelectFile textFile] initialWorld = Some w
    /\ pipelineState (app w) = Idle
    /\ sourceImage (app w) = None
    /\ resultImage (app w) = None
    /\ isProcessing (app w) = false
    /\ inFlight w = []
    /\ reading w = []
    /\ ([SelectFile textFile; SelectFile textFile] <> [] ->
        error (app w) = Some invalidFileTypeMessage)
    /\ Forall (fun e => exists f, e = SelectFile f)
              [SelectFile textFile; SelectFile textFile].
Proof.
  eexists. split; [reflexivity|].
  apply (rejected_files_never_load [SelectFile textFile; SelectFile textFile]).
  - reflexivity.
  - intros f [H|[H|[]]]; inversion H; reflexivity.
Defined.

(** X12. A removal is started on one file, the trash button is pressed, and
    another file is loaded before the call settles: the processing notice
    shows over the new source although the only outstanding request is the
    one for the old file, and the reply to that request becomes the result
    shown with the new source. *)
Theorem reply_for_old_source_shown_with_new
  (f g : File) (r : GenerateContentResponse) (url : string) :
  accepted f ->
  accepted g ->
  interpret r = Some url ->
  run [SelectFile f; FileLoaded 0; ClickRemove; ClickReset;
       SelectFile g; FileLoaded 0] initialWorld
  = Some (mkWorld (mkApp (Some (readAsDataURL g)) None true None)
                  [buildRequest (readAsDataURL f)] [])
  /\ run [SelectFile f; FileLoaded 0; ClickRemove; ClickReset;
          SelectFile g; FileLoaded 0; Settled 0 (Fulfilled r)] initialWorld
     = Some (mkWorld (mkApp (Some (readAsDataURL g)) (Some url) false None) [] []).
Proof.
  intros Hf Hg Hu.
  assert (Step : forall es,
            run (SelectFile f :: FileLoaded 0 :: ClickRemove :: ClickReset
                   :: SelectFile g :: FileLoaded 0 :: es) initialWorld
            = run es (mkWorld (mkApp (Some (readAsDataURL g)) None true None)
                              [buildRequest (readAsDataURL f)] [])).
  { intros es.
    rewrite (run_select_load f _ initialWorld eq_refl eq_refl Hf).
    erewrite run_cons by (apply (fire_remove_dataURL f); reflexivity).
    erewrite run_cons by reflexivity.
    now rewrite (run_select_load g) by first [exact Hg | reflexivity]. }
  split; [exact (Step [])|].
  rewrite Step.
  erewrite run_cons by (eapply fire_settled_single; reflexivity).
  cbn [run app reading]. now rewrite (resume_image r _ url Hu).
Qed.

Lemma reply_for_old_source_shown_with_new_witness :
  run [SelectFile pngFile; FileLoaded 0; ClickRemove; ClickReset;
       SelectFile jpegFile; FileLoaded 0] initialWorld
  = Some (mkWorld (mkApp (Some (readAsDataURL jpegFile)) None true None)
                  [buildRequest (readAsDataURL pngFile)] [])
  /\ run [SelectFile pngFile; FileLoaded 0; ClickRemove; ClickReset;
          SelectFile jpegFile; FileLoaded 0;
          Settled 0 (Fulfilled (replyOf [imagePart "AAAA"]))] initialWorld
     = Some (mkWorld (mkApp (Some (readAsDataURL jpegFile))
                            (Some "data:image/png;base64,AAAA") false None) [] []).
Proof.
  apply (reply_for_old_source_shown_with_new pngFile jpegFile
           (replyOf [imagePart "AAAA"])); reflexivity.
Defined.

(** ** Download *)

Lemma filter_fresh (x : Element) (xs : list Element) (n : nat) :
  identity x = n ->
  Forall (fun y => identity y < n) xs ->
  filter (fun y => negb (sameElement x y)) xs = xs.
Proof.
  intros Hx H. induction H as [|y ys Hy _ IH]; simpl; [reflexivity|].
  unfold sameElement at 1.
  assert (Nat.eqb (identity x) (identity y) = false) as ->
      by (apply Nat.eqb_neq; lia).
  simpl. now rewrite IH.
Qed.

Lemma downloadResult_effect (s : AppState) (d : Document) :
  bodyKnown d ->
  body (downloadResult s d) = body d
  /\ saved (downloadResult s d)
     = (saved d ++ match resultImage s with
                   | Some result =>
                       if String.eqb result "" then [] else [(result, downloadName)]
                   | None => []
                   end)%list
  /\ created d <= created (downloadResult s d).
Proof.
  intros K. unfold downloadResult.
  destruct (resultImage s) as [result|];
    [|rewrite app_nil_r; repeat split; lia].
  destruct (String.eqb result "");
    [rewrite app_nil_r; repeat split; lia|].
  cbn [createElement identity tagName].
  set (link := mkElement (created d) "a" (Some result) (Some downloadName)).
  unfold removeChild, click, appendChild.
  cbn [body created saved href download link].
  split; [|split; [reflexivity | lia]].
  rewrite (filter_fresh link (body d) (created d) eq_refl K).
  rewrite filter_app, (filter_fresh link (body d) (created d) eq_refl K).
  simpl. unfold sameElement. cbn [identity link].
  rewrite Nat.eqb_refl. simpl. apply app_nil_r.
Qed.

(** X13. [downloadResult] does nothing when no result is stored.  With a
    result it triggers exactly one save, of the stored result under the name
    [purecut-result.png], and leaves the children of the body exactly as
    they were: the link it appends is the one it removes.  Every child is
    still known afterwards, so this holds for every further download. *)
Theorem downloadResult_saves_once (s : AppState) (d : Document) :
  bodyKnown d ->
  body (downloadResult s d) = body d
  /\ bodyKnown (downloadResult s d)
  /\ saved (downloadResult s d)
     = (saved d ++ match resultImage s with
                   | Some result =>
                       if String.eqb result "" then [] else [(result, downloadName)]
                   | None => []
                   end)%list
  /\ (resultImage s = None -> downloadResult s d = d).
Proof.
  intros K. destruct (downloadResult_effect s d K) as (B & S & C).
  split; [exact B|]. split; [|split; [exact S|]].
  - unfold bodyKnown. rewrite B.
    eapply Forall_impl; [|exact K]. simpl. intros x Hx. lia.
  - intros E. unfold downloadResult. now rewrite E.
Qed.

Lemma downloadResult_saves_once_witness :
  body (downloadResult (mkApp None (Some "data:image/png;base64,AAAA") false None)
                       sampleDocument)
  = body sampleDocument
  /\ bodyKnown (downloadResult
                  (mkApp None (Some "data:image/png;base64,AAAA") false None)
                  sampleDocument)
  /\ saved (downloadResult
              (mkApp None (Some "data:image/png;base64,AAAA") false None)
              sampleDocument)
     = [("data:image/png;base64,AAAA", downloadName)]
  /\ (resultImage (mkApp None (Some "data:image/png;base64,AAAA") false None)
      = None ->
      downloadResult (mkApp None (Some "data:image/png;base64,AAAA") false None)
                     sampleDocument
      = sampleDocument).
Proof.
  apply (downloadResult_saves_once
           (mkApp None (Some "data:image/png;base64,AAAA") false None)
           sampleDocument).
  repeat constructor.
Defined.

(** X14. Whenever the Download Result button is mounted in a reachable
    world, pressing it saves a PNG data URL, the stored result, as
    [purecut-result.png]; the guard of [downloadResult] never fires there. *)
Theorem download_button_saves_png (w : World) (d : Document) :
  reachable w ->
  Render.resultButtons (app w) = true ->
  bodyKnown d ->
  exists payload,
    resultImage (app w) = Some ("data:image/png;base64," ++ payload)
    /\ saved (downloadResult (app w) d)
       = (saved d
          ++ [(("data:image/png;base64," ++ payload)%string, downloadName)])%list
    /\ body (downloadResult (app w) d) = body d
    /\ fire ClickDownload w = Some w.
Proof.
  intros R B K.
  destruct (reachable_provenance w R) as (_ & _ & _ & Hres & _).
  assert (Hb := B). unfold Render.resultButtons in B.
  apply andb_true_iff in B as [_ Ht].
  destruct Hres as [E|(payload & E)]; [rewrite E in Ht; discriminate|].
  exists payload. split; [exact E|].
  destruct (downloadResult_effect (app w) d K) as (Hbody & Hsaved & _).
  rewrite Hsaved, E. split; [reflexivity|]. split; [exact Hbody|].
  simpl. now rewrite Hb.
Qed.

Lemma download_button_saves_png_witness :
  exists payload,
    resultImage (app succeededWorld) = Some ("data:image/png;base64," ++ payload)
    /\ saved (downloadResult (app succeededWorld) sampleDocument)
       = (saved sampleDocument
          ++ [(("data:image/png;base64," ++ payload)%string, downloadName)])%list
    /\ body (downloadResult (app succeededWorld) sampleDocument)
       = body sampleDocument
    /\ fire ClickDownload succeededWorld = Some succeededWorld.
Proof.
  apply (download_button_saves_png succeededWorld sampleDocument).
  - exists [SelectFile pngFile; FileLoaded 0; ClickRemove;
            Settled 0 (Fulfilled (replyOf [imagePart "AAAA"]))].
    reflexivity.
  - reflexivity.
  - repeat constructor.
Defined.

(** ** Dropping and choosing files *)

(** X15. A drop and a choice in the file dialog hand the same list to the
    same check: only the first file counts.  The drop always has its default
    action prevented and its propagation stopped, with or without files, as
    has every drag-over.  With no file nothing changes; when the first file
    fails the type check no read is started and the error is set, even if
    an image follows it in the list. *)
Theorem onDrop_takes_first_file
  (files : option (list File)) (e : DomEvent) (w : World) :
  fst (onDrop files e w) = mkDomEvent true true
  /\ onDragOver e = mkDomEvent true true
  /\ snd (onDrop files e w) = handleFileChange files w
  /\ (files = None \/ files = Some [] -> handleFileChange files w = w)
  /\ (forall f others,
        files = Some (f :: others) ->
        handleFileChange files w = processFile f w
        /\ (JS.startsWith "image/" (file_type f) = false ->
            reading (handleFileChange files w) = reading w
            /\ app (handleFileChange files w)
               = setError (Some invalidFileTypeMessage) (app w))
        /\ (JS.startsWith "image/" (file_type f) = true ->
            reading (handleFileChange files w) = (reading w ++ [f])%list
            /\ app (handleFileChange files w) = app w)).
Proof.
  unfold onDrop, handleFileChange.
  split; [now destruct (firstFile files)|].
  split; [reflexivity|].
  split; [now destruct (firstFile files)|].
  split.
  - intros [->| ->]; reflexivity.
  - intros f others ->. cbn [firstFile JS.index nth_error].
    split; [reflexivity|].
    unfold processFile. split; intros ->; split; reflexivity.
Qed.

(** ** The state machine *)

Lemma quiet_fire (e : Event) (w w' : World) :
  invariant w -> provenance w -> quiet w -> fire e w = Some w' -> quiet w'.
Proof.
  intros (_ & Hflag & Hres & _) (_ & Hsrc & _) Q E.
  destruct e as [f|i| | | |i o]; simpl in E.
  - (* SelectFile *)
    destruct (Render.uploadZone (app w)) eqn:Z; [|discriminate].
    inversion E; subst w'; clear E. unfold processFile.
    destruct (negb (JS.startsWith "image/" (file_type f))); [|exact Q].
    intros S _. exfalso. apply S. cbn [app setError sourceImage].
    destruct Hsrc as [H|(g & _ & H)]; [exact H|].
    unfold Render.uploadZone in Z. rewrite H, truthy_dataURL in Z. discriminate.
  - (* FileLoaded *)
    destruct (takeOut i (reading w)) as [[f rest]|]; [|discriminate].
    inversion E; subst w'. intros _ _. reflexivity.
  - (* ClickRemove *)
    destruct (Render.removeButton (app w)); [|discriminate].
    inversion E; subst w'; clear E. unfold removeBackground.
    destruct (sourceImage (app w)) as [src|]; [|exact Q].
    destruct (String.eqb src ""); [exact Q|]. intros _ _. reflexivity.
  - (* ClickReset *)
    destruct (Render.trashButton (app w)); [|discriminate].
    inversion E; subst w'. intros _ _. reflexivity.
  - (* ClickDownload *)
    destruct (Render.resultButtons (app w)); [|discriminate].
    inversion E; subst w'. exact Q.
  - (* Settled *)
    destruct (takeOut i (inFlight w)) as [[q rest]|] eqn:T; [|discriminate].
    inversion E; subst w'; clear E.
    assert (P : isProcessing (app w) = true).
    { apply Hflag. intros H. rewrite H in T. discriminate. }
    unfold quiet. cbn [app].
    destruct (resume_cases o (app w)) as [(d & ->)|(m & _ & ->)];
      cbn [sourceImage resultImage isProcessing error].
    + intros S _. apply Q; [exact S | now left].
    + intros _ [H|H]; [discriminate|]. now rewrite (Hres P) in H.
Qed.

Lemma reachable_all (w : World) :
  reachable w -> invariant w /\ provenance w /\ quiet w.
Proof.
  intros R. split; [now apply reachable_invariant|].
  split; [now apply reachable_provenance|].
  destruct R as [es E].
  assert (G : forall es w0 w1,
            invariant w0 -> provenance w0 -> quiet w0 ->
            run es w0 = Some w1 -> quiet w1).
  { clear. induction es as [|e es IH]; simpl; intros w0 w1 I P Q E.
    - inversion E; subst; exact Q.
    - destruct (fire e w0) as [w2|] eqn:F; [|discriminate].
      exact (IH w2 w1 (invariant_fire _ _ _ I F) (provenance_fire _ _ _ P F)
                (quiet_fire _ _ _ I P Q F) E). }
  apply (G es initialWorld w invariant_initial provenance_initial); [|exact E].
  intros H. now contradiction H.
Qed.

(** X16. In every reachable world, a pipeline that is processing or has
    succeeded holds no error: with a source on screen the error banner shows
    only beside the Remove Background button. *)
Theorem no_error_while_processing_or_done (w : World) :
  reachable w ->
  (pipelineState (app w) = Processing \/ pipelineState (app w) = Succeeded) ->
  error (app w) = None /\ Render.errorBanner (app w) = false.
Proof.
  intros R H. destruct (reachable_all w R) as (_ & _ & Q).
  assert (E : error (app w) = None).
  { unfold pipelineState, Render.uploadZone in H.
    destruct (sourceImage (app w)) as [src|] eqn:S;
      [|simpl in H; destruct H; discriminate].
    apply Q; [now rewrite S|].
    destruct (JS.truthy (Some src)); simpl in H; [|destruct H; discriminate].
    destruct (isProcessing (app w)); [now left|]. right.
    destruct (resultImage (app w)); [discriminate|].
    simpl in H. destruct (JS.truthy (error (app w))), H; discriminate. }
  split; [exact E|]. unfold Render.errorBanner. now rewrite E.
Qed.

Lemma no_error_while_processing_or_done_witness :
  error (app succeededWorld) = None
  /\ Render.errorBanner (app succeededWorld) = false.
Proof.
  apply (no_error_while_processing_or_done succeededWorld).
  - exists [SelectFile pngFile; FileLoaded 0; ClickRemove;
            Settled 0 (Fulfilled (replyOf [imagePart "AAAA"]))].
    reflexivity.
  - right. reflexivity.
Defined.

Ltac by_state :=
  unfold pipelineState, Render.uploadZone;
  cbn [sourceImage resultImage isProcessing error].

(** X17. The moves of the pipeline state in reachable worlds.  Selecting a
    file happens in the idle state and stays there; a finished read leads to
    loaded, or to processing when a call is outstanding; Remove Background
    leads from loaded or failed to processing; reset leads from any other
    state to idle; download stays in succeeded; a settlement leads from
    processing to succeeded or failed, or, when the source was reset
    meanwhile, from idle to idle. *)
Theorem transitions_follow_table (e : Event) (w w' : World) :
  reachable w ->
  fire e w = Some w' ->
  allowed (pipelineState (app w)) e (pipelineState (app w')).
Proof.
  intros R E.
  destruct (reachable_all w R) as ((_ & Hflag & Hres & _) & (_ & Hsrc & _) & Q).
  assert (Hs : JS.truthy (sourceImage (app w)) = false -> sourceImage (app w) = None).
  { destruct Hsrc as [H|(g & _ & H)]; [auto|].
    rewrite H, truthy_dataURL. discriminate. }
  destruct e as [f|i| | | |i o]; simpl in E |- *.
  - (* SelectFile *)
    destruct (Render.uploadZone (app w)) eqn:Z; [|discriminate].
    inversion E; subst w'; clear E.
    assert (Z' : Render.uploadZone (app (processFile f w)) = true).
    { unfold processFile.
      destruct (negb (JS.startsWith "image/" (file_type f))); exact Z. }
    unfold pipelineState. now rewrite Z, Z'.
  - (* FileLoaded *)
    destruct (takeOut i (reading w)) as [[f rest]|]; [|discriminate].
    inversion E; subst w'; clear E. cbn [app].
    assert (A : pipelineState (reader_onload f (app w))
                = if isProcessing (app w) then Processing else Loaded).
    { unfold reader_onload, setError, setResultImage, setSourceImage.
      by_state. rewrite truthy_dataURL. simpl.
      now destruct (isProcessing (app w)). }
    rewrite A. unfold pipelineState.
    destruct (Render.uploadZone (app w)), (isProcessing (app w)),
      (JS.truthy (resultImage (app w))), (JS.truthy (error (app w)));
      repeat split; auto; try discriminate;
      intros [H|[H|H]]; (reflexivity || discriminate).
  - (* ClickRemove *)
    destruct (Render.removeButton (app w)) eqn:B; [|discriminate].
    inversion E; subst w'; clear E.
    unfold Render.removeButton in B.
    apply andb_true_iff in B as [B Hp]. apply andb_true_iff in B as [Ht Hr].
    apply negb_true_iff in Hp, Hr.
    destruct (truthy_Some _ Ht) as (src & S & Hne).
    apply String.eqb_neq in Hne.
    split.
    + by_state. rewrite Ht, Hp, Hr. simpl.
      destruct (JS.truthy (error (app w))); auto.
    + unfold removeBackground. rewrite S, Hne.
      unfold setError, setIsProcessing. by_state. cbn [app].
      by_state. now rewrite Ht.
  - (* ClickReset *)
    destruct (Render.trashButton (app w)) eqn:B; [|discriminate].
    inversion E; subst w'; clear E. unfold Render.trashButton in B.
    split; [|reflexivity].
    by_state. rewrite B. simpl.
    destruct (isProcessing (app w)), (JS.truthy (resultImage (app w))),
      (JS.truthy (error (app w))); discriminate.
  - (* ClickDownload *)
    destruct (Render.resultButtons (app w)) eqn:B; [|discriminate].
    inversion E; subst w'; clear E. unfold Render.resultButtons in B.
    apply andb_true_iff in B as [Ht Hr].
    assert (P : isProcessing (app w) = false).
    { destruct (isProcessing (app w)); [|reflexivity].
      rewrite (Hres eq_refl) in Hr. discriminate. }
    by_state. rewrite Ht, P, Hr. now split.
  - (* Settled *)
    destruct (takeOut i (inFlight w)) as [[q rest]|] eqn:T; [|discriminate].
    inversion E; subst w'; clear E. cbn [app].
    assert (P : isProcessing (app w) = true).
    { apply Hflag. intros H. rewrite H in T. discriminate. }
    pose proof (Hres P) as N.
    destruct (JS.truthy (sourceImage (app w))) eqn:Ht.
    + left. split; [by_state; now rewrite Ht, P|].
      destruct (resume_cases o (app w)) as [(d & ->)|(m & Hm & ->)]; by_state;
        rewrite Ht; simpl.
      * left. reflexivity.
      * right. rewrite N. simpl. simpl in Hm. now rewrite Hm.
    + right. split; [by_state; now rewrite Ht|].
      unfold pipelineState, Render.uploadZone.
      now rewrite resume_source, Ht.
Qed.

Lemma transitions_follow_table_witness :
  allowed (pipelineState (app processingWorld))
          (Settled 0 (Rejected (Some "network down")))
          (pipelineState (app failedWorld)).
Proof.
  apply (transitions_follow_table (Settled 0 (Rejected (Some "network down")))
           processingWorld failedWorld).
  - exists [SelectFile pngFile; FileLoaded 0; ClickRemove]. reflexivity.
  - reflexivity.
Defined.

(** X18. Reset does not cancel a read that is still pending: when a second
    file was selected before the first had loaded, and the trash button is
    pressed after the first has loaded, the second file still becomes the
    source once its read finishes. *)
Theorem reset_keeps_pending_read (w : World) (f g : File) :
  Render.uploadZone (app w) = true ->
  reading w = [] ->
  accepted f ->
  accepted g ->
  run [SelectFile f; SelectFile g; FileLoaded 0; ClickReset] w
  = Some (mkWorld (mkApp None None (isProcessing (app w)) None) (inFlight w) [g])
  /\ run [SelectFile f; SelectFile g; FileLoaded 0; ClickReset; FileLoaded 0] w
     = Some (mkWorld (mkApp (Some (readAsDataURL g)) None
                            (isProcessing (app w)) None)
                     (inFlight w) []).
Proof.
  intros Hz Hr Hf Hg.
  assert (Step : forall es,
            run (SelectFile f :: SelectFile g :: FileLoaded 0 :: ClickReset :: es) w
            = run es (mkWorld (mkApp None None (isProcessing (app w)) None)
                              (inFlight w) [g])).
  { intros es. rewrite (run_cons _ _ _ _ (fire_select_accepted f w Hz Hf)).
    erewrite run_cons by (apply fire_select_accepted; [exact Hz | exact Hg]).
    cbn [app inFlight reading]. rewrite Hr. reflexivity. }
  split; [exact (Step [])|]. rewrite Step. reflexivity.
Qed.

Lemma reset_keeps_pending_read_witness :
  run [SelectFile pngFile; SelectFile jpegFile; FileLoaded 0; ClickReset]
      initialWorld
  = Some (mkWorld (mkApp None None (isProcessing (app initialWorld)) None)
                  (inFlight initialWorld) [jpegFile])
  /\ run [SelectFile pngFile; SelectFile jpegFile; FileLoaded 0; ClickReset;
          FileLoaded 0] initialWorld
     = Some (mkWorld (mkApp (Some (readAsDataURL jpegFile)) None
                            (isProcessing (app initialWorld)) None)
                     (inFlight initialWorld) []).
Proof.
  apply (reset_keeps_pending_read initialWorld pngFile jpegFile); reflexivity.
Defined.
